(** * Content importer: HTML section extraction and the import API

    A shallow embedding of [main.py]: the heuristic extractor
    [extract_text_and_sections] over a BeautifulSoup document tree, and
    the two API operations [import_content] and [get_latest_content] over
    an explicit network and document store. *)

From Stdlib Require Import ZArith NArith Lia Ascii String DecimalString.
From stdpp Require Import base list strings gmap.

Open Scope N_scope.

(** ** Python strings

    A Python [str] is a sequence of Unicode code points. *)

Module PyStr.

Definition pystr := list N.

(** An ASCII literal as a Python string. *)
Definition py (s : string) : pystr :=
  List.map N_of_ascii (list_ascii_of_string s).

(** [Py_UNICODE_ISSPACE]: the characters [str.strip()] removes. *)
Definition isspace (c : N) : bool :=
  ((9 <=? c) && (c <=? 13)) || ((28 <=? c) && (c <=? 32))
  || (c =? 133) || (c =? 160) || (c =? 5760)
  || ((8192 <=? c) && (c <=? 8202))
  || (c =? 8232) || (c =? 8233) || (c =? 8239) || (c =? 8287)
  || (c =? 12288).

Fixpoint lstrip (s : pystr) : pystr :=
  match s with
  | c :: r => if isspace c then lstrip r else s
  | [] => []
  end.

Definition rstrip (s : pystr) : pystr := rev (lstrip (rev s)).

(** [s.strip()] *)
Definition strip (s : pystr) : pystr := rstrip (lstrip s).

(** Truth value of a string in a condition: non-empty. *)
Definition truthy (s : pystr) : bool :=
  match s with [] => false | _ :: _ => true end.

Fixpoint startswith (k s : pystr) : bool :=
  match k, s with
  | [], _ => true
  | _ :: _, [] => false
  | a :: k', b :: s' => (a =? b) && startswith k' s'
  end.

(** [k in s] on strings: [k] occurs as a substring of [s]. *)
Fixpoint contains (k s : pystr) : bool :=
  startswith k s ||
  match s with
  | [] => false
  | _ :: r => contains k r
  end.

(** [any(k in s for k in keys)] *)
Definition any_in (keys : list pystr) (s : pystr) : bool :=
  existsb (fun k => contains k s) keys.

(** [sep.join(parts)] *)
Fixpoint join (sep : pystr) (parts : list pystr) : pystr :=
  match parts with
  | [] => []
  | [p] => p
  | p :: rest => p ++ sep ++ join sep rest
  end.

(** [x in l] on a list of strings. *)
Definition mem (x : pystr) (l : list pystr) : bool :=
  bool_decide (x ∈ l).

(** [str(n)] for an integer. *)
Definition str_of_int (n : Z) : pystr :=
  py (NilZero.string_of_int (Z.to_int n)).

End PyStr.
Import PyStr.

(** ** The document tree of BeautifulSoup

    Markup is parsed by the [bs4] library; what the extractor sees is
    the tree: tags with a name, attributes and contents, and strings of
    one of the library's string classes. *)

Module Bs4.

Inductive string_class :=
  | NavigableString | CData | Comment | ProcessingInstruction
  | Declaration | Doctype | Stylesheet | Script | TemplateString
  | RubyTextString | RubyParenthesisString.

#[global] Instance string_class_eq_dec : EqDecision string_class.
Proof. solve_decision. Defined.

#[local] Unset Elimination Schemes.
Inductive node :=
  | Tag (name : pystr) (attrs : list (pystr * pystr)) (contents : list node)
  | Text (cls : string_class) (value : pystr).
#[local] Set Elimination Schemes.

(** Structural induction through the contents lists. *)
Section NodeInduction.
Variable P : node -> Prop.
Hypothesis Htag : forall nm attrs cs, Forall P cs -> P (Tag nm attrs cs).
Hypothesis Htext : forall c v, P (Text c v).

Fixpoint node_ind (n : node) : P n :=
  match n with
  | Tag nm attrs cs =>
      Htag nm attrs cs
        ((fix all (l : list node) : Forall P l :=
            match l with
            | [] => @List.Forall_nil node P
            | c :: r => @List.Forall_cons node P c r (node_ind c) (all r)
            end) cs)
  | Text c v => Htext c v
  end.
End NodeInduction.

(** A page element is a node together with its place in the tree: the
    chain of its ancestors (nearest first, [.parents]) and the nodes that
    follow it under the same parent ([.next_siblings]). *)
Record element := Element {
  self : node;
  parents : list node;
  next_siblings : list node
}.

(** [.parent] *)
Definition parent (e : element) : option node := head (parents e).

Definition is_tag (n : node) : bool :=
  match n with Tag _ _ _ => true | Text _ _ => false end.

Definition is_text (n : node) : bool := negb (is_tag n).

Definition named (names : list pystr) (n : node) : bool :=
  match n with
  | Tag nm _ _ => bool_decide (nm ∈ names)
  | Text _ _ => false
  end.

(** [tag.get(key)]: the attribute's value, [None] when absent. *)
Fixpoint attr_get (key : pystr) (attrs : list (pystr * pystr)) : option pystr :=
  match attrs with
  | [] => None
  | (k, v) :: r => if bool_decide (k = key) then Some v else attr_get key r
  end.

Definition get (key : pystr) (n : node) : option pystr :=
  match n with
  | Tag _ attrs _ => attr_get key attrs
  | Text _ _ => None
  end.

(** Document-order traversal: the node itself, then its descendants. *)
Fixpoint walk (ps : list node) (n : node) (sibs : list node) : list element :=
  Element n ps sibs ::
  match n with
  | Tag _ _ cs =>
      (fix children (l : list node) : list element :=
         match l with
         | [] => []
         | c :: r => walk (n :: ps) c r ++ children r
         end) cs
  | Text _ _ => []
  end.

(** The elements of a contents list, in order, with their descendants. *)
Fixpoint walk_contents (ps : list node) (l : list node) : list element :=
  match l with
  | [] => []
  | c :: r => walk ps c r ++ walk_contents ps r
  end.

Definition contents_of (n : node) : list node :=
  match n with Tag _ _ cs => cs | Text _ _ => [] end.

(** [.descendants] *)
Definition descendants (e : element) : list element :=
  walk_contents (self e :: parents e) (contents_of (self e)).

(** The root object of a parsed document, a tag named [[document]]. *)
Definition soup_of (top : list node) : element :=
  Element (Tag (py "[document]") [] top) [] [].

(** [tag.extract()] for every tag of [find_all(names)]: each such tag is
    detached from its parent, so the tree keeps no tag with one of the
    names, at any depth. *)
Fixpoint extract_all (names : list pystr) (n : node) : node :=
  match n with
  | Tag nm attrs cs =>
      Tag nm attrs
        ((fix keep (l : list node) : list node :=
            match l with
            | [] => []
            | c :: r =>
                if named names c then keep r
                else extract_all names c :: keep r
            end) cs)
  | Text _ _ => n
  end.

Fixpoint extract_contents (names : list pystr) (l : list node) : list node :=
  match l with
  | [] => []
  | c :: r =>
      if named names c then extract_contents names r
      else extract_all names c :: extract_contents names r
  end.

(** The string classes [get_text] keeps for a tag: the container class
    of [script], [style], [template], [rt] and [rp], and otherwise plain
    strings and CDATA sections. *)
Definition interesting_string_types (name : pystr) (c : string_class) : bool :=
  if bool_decide (name = py "script") then bool_decide (c = Script)
  else if bool_decide (name = py "style") then bool_decide (c = Stylesheet)
  else if bool_decide (name = py "template") then bool_decide (c = TemplateString)
  else if bool_decide (name = py "rt") then bool_decide (c = RubyTextString)
  else if bool_decide (name = py "rp") then bool_decide (c = RubyParenthesisString)
  else bool_decide (c = NavigableString) || bool_decide (c = CData).

Definition name_of (n : node) : pystr :=
  match n with Tag nm _ _ => nm | Text _ _ => [] end.

(** The stripped, non-empty strings one descendant contributes. *)
Definition stripped_string (types : string_class -> bool) (n : node) : list pystr :=
  match n with
  | Text c v =>
      if types c then
        (if truthy (strip v) then [strip v] else [])
      else []
  | Tag _ _ _ => []
  end.

(** [tag._all_strings(strip=True)] *)
Definition all_strings (t : node) : list pystr :=
  flat_map (fun e => stripped_string (interesting_string_types (name_of t)) (self e))
           (walk_contents [t] (contents_of t)).

(** [tag.get_text(sep, strip=True)] *)
Definition get_text (sep : pystr) (t : node) : pystr :=
  join sep (all_strings t).

(** [tag.find_all(names)]: the descendant tags with one of the names. *)
Definition find_all (names : list pystr) (root : element) : list element :=
  List.filter (fun e => named names (self e)) (descendants root).

(** [tag.find(name)] *)
Definition find (name : pystr) (root : element) : option element :=
  head (find_all [name] root).

Definition text_value (n : node) : pystr :=
  match n with Text _ v => v | Tag _ _ _ => [] end.

(** [tag.find_all(text=True)]: every descendant string, of any class;
    the search loop passes over an element that is false as a
    condition, which for a string is the empty one. *)
Definition find_all_text (root : element) : list element :=
  List.filter (fun e => is_text (self e) && truthy (text_value (self e)))
              (descendants root).

Fixpoint sibling_elements (ps : list node) (sibs : list node) : list element :=
  match sibs with
  | [] => []
  | s :: r => Element s ps r :: sibling_elements ps r
  end.

(** [tag.find_next_siblings(limit=k)]: the first [k] tags among the
    following siblings. *)
Definition find_next_siblings (limit : nat) (e : element) : list element :=
  take limit (List.filter (fun s => is_tag (self s))
                          (sibling_elements (parents e) (next_siblings e))).

Definition has_attr (key : pystr) (n : node) : bool :=
  match get key n with Some _ => true | None => false end.

(** [soup.select('nav a[href]')]: the [a] tags carrying an [href]
    attribute that lie below some [nav] tag, in document order. Tag and
    attribute names are as the parser gives them, in lower case. *)
Definition select_nav_a_href (root : element) : list element :=
  List.filter
    (fun e => named [py "a"] (self e) && has_attr (py "href") (self e)
              && existsb (named [py "nav"]) (parents e))
    (descendants root).

End Bs4.
Import Bs4.

(** ** Exceptions *)

Inductive exn :=
  | AttributeError (msg : pystr)
  | Exception (msg : pystr)
  | ParserRejectedMarkup (msg : pystr)
  | HTTPException (status_code : Z) (detail : pystr).

Inductive result (A : Type) : Type :=
  | Ok (a : A)
  | Raise (e : exn).
Arguments Ok {A} a.
Arguments Raise {A} e.

(** Sequencing: an exception raised by the first step propagates. *)
#[global] Instance result_bind : MBind result := λ A B k r,
  match r with
  | Ok a => k a
  | Raise e => Raise e
  end.

(** [str(e)] *)
Definition exn_str (e : exn) : pystr :=
  match e with
  | AttributeError msg => msg
  | Exception msg => msg
  | ParserRejectedMarkup msg => msg
  | HTTPException _ detail => detail
  end.

(** ** The extractor *)

Record NavItem := { label : pystr; href : option pystr }.

Record ExtractionResult := {
  raw_text : pystr;
  sections : gmap string (list pystr);
  navigation : list NavItem
}.

Definition removed_names : list pystr :=
  [py "script"; py "style"; py "noscript"].

(** "услуги", "сервисы" *)
Definition service_keywords : list pystr :=
  [py "service";
   [1091; 1089; 1083; 1091; 1075; 1080];
   [1089; 1077; 1088; 1074; 1080; 1089; 1099]].

(** "отзывы", "клиенты о нас" *)
Definition testimonial_keywords : list pystr :=
  [[1086; 1090; 1079; 1099; 1074; 1099];
   py "testimonial";
   py "feedback";
   [1082; 1083; 1080; 1077; 1085; 1090; 1099; 32; 1086; 32; 1085; 1072; 1089]].

(** "контакт", "связаться", "заявка" *)
Definition contact_keywords : list pystr :=
  [[1082; 1086; 1085; 1090; 1072; 1082; 1090];
   py "contact";
   [1089; 1074; 1103; 1079; 1072; 1090; 1100; 1089; 1103];
   [1079; 1072; 1103; 1074; 1082; 1072]].

Section Extractor.

(** [BeautifulSoup(html, 'html.parser')]: the top-level contents of the
    parsed document, or the exception the parser raises on markup it
    rejects. The parser belongs to the library. *)
Variable BeautifulSoup : pystr -> result (list node).

(** [str.lower()], the interpreter's Unicode lower-casing. *)
Variable lower : pystr -> pystr.

(** Lines 75-77: the tree after the removal loop. *)
Definition cleaned (top : list node) : element :=
  soup_of (extract_contents removed_names top).

(** Lines 80-85. *)
Definition nav_items (soup : element) : list NavItem :=
  fold_left
    (fun items nav =>
       let text := get_text [] (self nav) in
       let href := get (py "href") (self nav) in
       if truthy text then items ++ [{| label := text; href := href |}]
       else items)
    (select_nav_a_href soup) [].

(** The loop shared by lines 95-98, 107-110 and 138-141: append the
    text of each sibling when it is not empty. *)
Definition append_texts (start : list pystr) (sibs : list element) : list pystr :=
  fold_left
    (fun acc node =>
       let t := get_text (py " ") (self node) in
       if truthy t then acc ++ [t] else acc)
    sibs start.

(** Lines 91-99. *)
Definition hero (soup : element) : option (list pystr) :=
  match find (py "h1") soup with
  | Some h1 =>
      Some (append_texts [get_text (py " ") (self h1)]
                         (find_next_siblings 3 h1))
  | None => None
  end.

(** The heading loops of lines 103-111 and 134-142. *)
Definition heading_blocks (names keywords : list pystr) (soup : element)
  : list pystr :=
  fold_left
    (fun blocks hdr =>
       let title := get_text (py " ") (self hdr) in
       if any_in keywords (lower title) then
         blocks ++ [join [10] (append_texts [title] (find_next_siblings 6 hdr))]
       else blocks)
    (find_all names soup) [].

(** Lines 116-123. *)
Fixpoint testimonials_loop (els : list element) (testimonials : list pystr)
  : result (list pystr) :=
  match els with
  | [] => Ok testimonials
  | el :: rest =>
      let txt := strip (text_value (self el)) in
      let low := lower txt in
      if truthy low && any_in testimonial_keywords low then
        match parent el with
        | None =>
            Raise (AttributeError
                     (py "'NoneType' object has no attribute 'get_text'"))
        | Some p =>
            let parent_block := get_text (py " ") p in
            if truthy parent_block && negb (mem parent_block testimonials)
            then testimonials_loop rest (testimonials ++ [parent_block])
            else testimonials_loop rest testimonials
        end
      else testimonials_loop rest testimonials
  end.

(** Lines 128-132. *)
Definition contact_texts (soup : element) : list pystr :=
  fold_left
    (fun acc form =>
       let t := get_text (py " ") (self form) in
       if truthy t then acc ++ [t] else acc)
    (find_all [py "form"] soup) [].

Definition set_if_any (key : string) (v : list pystr)
    (sections : gmap string (list pystr)) : gmap string (list pystr) :=
  match v with
  | [] => sections
  | _ :: _ => <[key := v]> sections
  end.

(** The body of [extract_text_and_sections] on the parsed tree. *)
Definition extract_soup (top : list node) : result ExtractionResult :=
  let soup := cleaned top in
  let nav_items := nav_items soup in
  let sections : gmap string (list pystr) := ∅ in
  let sections :=
    match hero soup with
    | Some hero_text => <["hero"%string := hero_text]> sections
    | None => sections
    end in
  let services_blocks :=
    heading_blocks [py "h2"; py "h3"] service_keywords soup in
  let sections := set_if_any "services" services_blocks sections in
  testimonials ← testimonials_loop (find_all_text soup) [];
  let sections :=
    match testimonials with
    | [] => sections
    | _ :: _ => <["testimonials"%string := take 10 testimonials]> sections
    end in
  let contact_headings :=
    heading_blocks [py "h2"; py "h3"; py "h4"] contact_keywords soup in
  let contacts := contact_texts soup ++ contact_headings in
  let sections := set_if_any "contact" contacts sections in
  let body :=
    match find (py "body") soup with
    | Some b => b
    | None => soup
    end in
  Ok {| raw_text := get_text [10] (self body);
        sections := sections;
        navigation := nav_items |}.

(** Lines 71-155: line 73 is outside any [try], so what the parser
    raises leaves the function. *)
Definition extract_text_and_sections (html : pystr) : result ExtractionResult :=
  top ← BeautifulSoup html;
  extract_soup top.

End Extractor.

(** Lower-casing of the Basic Latin capitals and of the Cyrillic capitals
    U+0400 to U+042F, the letters of the keyword lists; every other code
    point is left as it is. The documents written out below are in these
    letters. *)
Definition lower_char (c : N) : N :=
  if (65 <=? c) && (c <=? 90) then c + 32
  else if (1040 <=? c) && (c <=? 1071) then c + 32
  else if (1024 <=? c) && (c <=? 1039) then c + 80
  else c.

Definition lower_latin_cyrillic (s : pystr) : pystr := List.map lower_char s.

(** Shorthands for writing document trees. *)
Definition mk_tag (name : string) (cs : list node) : node := Tag (py name) [] cs.
Definition mk_str (s : string) : node := Text NavigableString (py s).

(** ** Schemas and the document store *)

Module ImportRequest.
Record t := { url : pystr; language : option pystr }.
End ImportRequest.

(** A value held under a key of a stored document. *)
Inductive value :=
  | VNone
  | VStr (s : pystr)
  | VDict (m : gmap string (list pystr))
  | VList (l : list NavItem).

Module SiteContent.

(** Modelled from the spec: the record class [schemas.SiteContent],
    which is not among the sources; its fields are those of the
    persisted record of the data model. *)
Record t := {
  source_url : pystr;
  language : option pystr;
  raw_html : option pystr;
  raw_text : option pystr;
  sections : gmap string (list pystr);
  navigation : list NavItem
}.

Definition validation_error : exn := Exception (py "validation error").

Definition as_str (v : value) : result pystr :=
  match v with VStr s => Ok s | _ => Raise validation_error end.

Definition as_optional_str (v : value) : result (option pystr) :=
  match v with
  | VNone => Ok None
  | VStr s => Ok (Some s)
  | _ => Raise validation_error
  end.

Definition as_dict (v : value) : result (gmap string (list pystr)) :=
  match v with VDict m => Ok m | _ => Raise validation_error end.

Definition as_list (v : value) : result (list NavItem) :=
  match v with VList l => Ok l | _ => Raise validation_error end.

(** Modelled from the spec: the constructor of [schemas.SiteContent]
    called with keyword arguments; every field is checked against its
    declared type. *)
Definition new (source_url language raw_html raw_text sections navigation : value)
  : result t :=
  u ← as_str source_url;
  l ← as_optional_str language;
  h ← as_optional_str raw_html;
  x ← as_optional_str raw_text;
  s ← as_dict sections;
  n ← as_list navigation;
  Ok (Build_t u l h x s n).

Definition of_option (o : option pystr) : value :=
  match o with Some s => VStr s | None => VNone end.

(** Modelled from the spec: the record as the dictionary the store
    keeps, one key per field. *)
Definition model_dump (d : t) : gmap string value :=
  <["source_url"%string := VStr (source_url d)]>
    (<["language"%string := of_option (language d)]>
       (<["raw_html"%string := of_option (raw_html d)]>
          (<["raw_text"%string := of_option (raw_text d)]>
             (<["sections"%string := VDict (sections d)]>
                (<["navigation"%string := VList (navigation d)]> ∅))))).
End SiteContent.

Inductive store_call :=
  | CreateDocument (collection : string) (data : SiteContent.t)
  | GetDocuments (collection : string) (limit : Z).

(** Modelled from the spec: the module [database], which is not among
    the sources. The store persists one record per import and hands back
    the most recent [limit] records, newest first; it fails as a whole
    when the database is not reachable. [calls] records every call made
    to it. *)
Record Store := {
  available : bool;
  collections : gmap string (list (gmap string value));
  calls : list store_call
}.

Definition database_error : exn := Exception (py "Database not available").

Definition records (collection : string) (st : Store) : list (gmap string value) :=
  default [] (collections st !! collection).

(** Modelled from the spec: [database.create_document]. *)
Definition create_document (collection : string) (data : SiteContent.t)
    (st : Store) : result pystr * Store :=
  let st1 := {| available := available st;
                collections := collections st;
                calls := calls st ++ [CreateDocument collection data] |} in
  if available st then
    let old := records collection st in
    (Ok (str_of_int (Z.of_nat (length old))),
     {| available := true;
        collections :=
          <[collection := old ++ [SiteContent.model_dump data]]> (collections st);
        calls := calls st1 |})
  else (Raise database_error, st1).

(** Modelled from the spec: [database.get_documents] with the empty
    filter. *)
Definition get_documents (collection : string) (limit : Z) (st : Store)
  : result (list (gmap string value)) * Store :=
  let st1 := {| available := available st;
                collections := collections st;
                calls := calls st ++ [GetDocuments collection limit] |} in
  if available st then
    (Ok (take (Z.to_nat limit) (rev (records collection st))), st1)
  else (Raise database_error, st1).

(** ** The API operations *)

Record Response := { status_code : Z; text : pystr }.

(** [d.get(key, default)] *)
Definition dict_get (d : gmap string value) (key : string) (dflt : value) : value :=
  default dflt (d !! key).

(** The status of the HTTP response for the outcome of a handler: an
    [HTTPException] carries its own, any other exception is answered
    by the framework with 500. *)
Definition http_status {A : Type} (r : result A) : Z :=
  match r with
  | Ok _ => 200
  | Raise (HTTPException code _) => code
  | Raise _ => 500
  end.

Section Api.

Variable BeautifulSoup : pystr -> result (list node).
Variable lower : pystr -> pystr.

(** [requests.get(url, timeout=20)]: a response, or an exception when
    the fetch fails. *)
Variable requests_get : pystr -> result Response.

(** Lines 159-185. *)
Definition import_content (req : ImportRequest.t) (st : Store)
  : result SiteContent.t * Store :=
  match requests_get (ImportRequest.url req) with
  | Raise e =>
      (Raise (HTTPException 400 (py "Failed to fetch URL: " ++ exn_str e)), st)
  | Ok resp =>
      if negb (status_code resp =? 200)%Z then
        (Raise (HTTPException (status_code resp)
                  (py "Upstream returned " ++ str_of_int (status_code resp))),
         st)
      else
        match
          extracted ← extract_text_and_sections BeautifulSoup lower (text resp);
          SiteContent.new
            (VStr (ImportRequest.url req))
            (SiteContent.of_option (ImportRequest.language req))
            (VStr (text resp))
            (VStr (raw_text extracted))
            (VDict (sections extracted))
            (VList (navigation extracted))
        with
        | Raise e => (Raise e, st)
        | Ok doc =>
            match create_document "sitecontent" doc st with
            | (Raise e, st') =>
                (Raise (HTTPException 500 (py "Database error: " ++ exn_str e)),
                 st')
            | (Ok inserted_id, st') => (Ok doc, st')
            end
        end
  end.

Fixpoint to_models (docs : list (gmap string value)) : result (list SiteContent.t) :=
  match docs with
  | [] => Ok []
  | d :: rest =>
      m ← SiteContent.new
            (dict_get d "source_url" (VStr []))
            (dict_get d "language" VNone)
            (dict_get d "raw_html" VNone)
            (dict_get d "raw_text" VNone)
            (dict_get d "sections" (VDict ∅))
            (dict_get d "navigation" (VList []));
      out ← to_models rest;
      Ok (m :: out)
  end.

(** Lines 189-205. *)
Definition get_latest_content (limit : Z) (st : Store)
  : result (list SiteContent.t) * Store :=
  match get_documents "sitecontent" limit st with
  | (Raise e, st') =>
      (Raise (HTTPException 500 (py "Database error: " ++ exn_str e)), st')
  | (Ok docs, st') =>
      match to_models docs with
      | Ok out => (Ok out, st')
      | Raise e =>
          (Raise (HTTPException 500 (py "Database error: " ++ exn_str e)), st')
      end
  end.

End Api.

(** ** What the claims speak of *)

(** The first occurrence of every string, in order of appearance. *)
Fixpoint unique_first (l : list pystr) : list pystr :=
  match l with
  | [] => []
  | x :: r => x :: List.filter (fun y => negb (bool_decide (y = x))) (unique_first r)
  end.

(** A section is stored under its key only when it has content. *)
Definition detected (l : list pystr) : option (list pystr) :=
  match l with [] => None | _ :: _ => Some l end.

(** The label of an anchor: [get_text(strip=True)]. *)
Definition anchor_label (e : element) : pystr := get_text [] (self e).

Definition nav_entry (e : element) : NavItem :=
  {| label := anchor_label e; href := get (py "href") (self e) |}.

(** An anchor below some [nav] tag whose label is not empty. *)
Definition labelled_nav_anchor (e : element) : bool :=
  named [py "a"] (self e) && existsb (named [py "nav"]) (parents e)
  && truthy (anchor_label e).

(** Navigation as the specification words it: every labelled anchor
    below a [nav], with or without [href]. *)
Definition anchors_in_nav (soup : element) : list NavItem :=
  List.map nav_entry (List.filter labelled_nav_anchor (descendants soup)).

(** Navigation over the anchors that carry an [href] attribute. *)
Definition linked_anchors_in_nav (soup : element) : list NavItem :=
  List.map nav_entry
    (List.filter (fun e => labelled_nav_anchor e && has_attr (py "href") (self e))
                 (descendants soup)).

(** The text of a tag, fragments joined by a space. *)
Definition tag_text (e : element) : pystr := get_text (py " ") (self e).

(** The tags among the following siblings. *)
Definition sibling_tags (e : element) : list element :=
  List.filter (fun s => is_tag (self s))
              (sibling_elements (parents e) (next_siblings e)).

(** A heading followed by the non-empty texts of its next [k] sibling
    tags. *)
Definition with_siblings (k : nat) (e : element) : list pystr :=
  tag_text e :: List.filter truthy (List.map tag_text (take k (sibling_tags e))).

(** The text of the parent element of a string. *)
Definition parent_block (e : element) : pystr :=
  match parent e with
  | Some p => get_text (py " ") p
  | None => []
  end.

(** A tag is out of the document when it, or a tag around it, is a
    [script], [style] or [noscript]. *)
Definition hidden (e : element) : bool :=
  named removed_names (self e) || existsb (named removed_names) (parents e).

(** The documents the specification names.
    [<h1>A</h1><p>B</p><p>C</p><p>D</p><p>E</p>] *)
Definition hero_page : list node :=
  [mk_tag "h1" [mk_str "A"]; mk_tag "p" [mk_str "B"]; mk_tag "p" [mk_str "C"];
   mk_tag "p" [mk_str "D"]; mk_tag "p" [mk_str "E"]].

(** [<script>evil()</script>Hello] *)
Definition script_page : list node :=
  [mk_tag "script" [Text Script (py "evil()")]; mk_str "Hello"].

(** [<nav><a href="/x">Home</a></nav>] *)
Definition nav_page : list node :=
  [mk_tag "nav" [Tag (py "a") [(py "href", py "/x")] [mk_str "Home"]]].

(** [<nav><a>Home</a></nav>] *)
Definition nav_page_without_href : list node :=
  [mk_tag "nav" [mk_tag "a" [mk_str "Home"]]].

(** "Отзывы: great service" *)
Definition great_service : pystr :=
  [1054; 1090; 1079; 1099; 1074; 1099; 58; 32] ++ py "great service".

(** Two [div] elements, each holding "Отзывы: great service". *)
Definition testimonial_page : list node :=
  [mk_tag "div" [Text NavigableString great_service];
   mk_tag "div" [Text NavigableString great_service]].

(** [<div><!-- feedback --></div>] *)
Definition comment_page : list node :=
  [mk_tag "div" [Text Comment (py " feedback ")]].

(** [<div><!-- feedback -->Hello</div>] *)
Definition comment_and_text_page : list node :=
  [mk_tag "div" [Text Comment (py " feedback "); mk_str "Hello"]].

(** A string of the page text proper, not a comment or a declaration. *)
Definition is_plain (e : element) : bool :=
  match self e with
  | Text NavigableString _ | Text CData _ => true
  | _ => false
  end.

(** A parse of markup that has neither tags nor references: one string. *)
Definition text_only_parser (html : pystr) : result (list node) :=
  Ok [Text NavigableString html].

(** [<p>ok</p><![ x ]>]: after [<![] the parser of Python 3.11 expects
    the name of a marked section, finds a space, and fails; bs4 hands
    the failure on as [ParserRejectedMarkup]. *)
Definition rejected_markup : pystr := py "<p>ok</p><![ x ]>".

(** A parser at work on that markup, and on markup without tags. *)
Definition strict_parser (html : pystr) : result (list node) :=
  if bool_decide (html = rejected_markup)
  then Raise (ParserRejectedMarkup (py "expected name token at '<![ x ]>'"))
  else text_only_parser html.

(** Networks: every fetch answers with the given status and body, or
    fails. *)
Definition answering (code : Z) (body : pystr) (url : pystr) : result Response :=
  Ok {| status_code := code; text := body |}.

Definition unreachable (url : pystr) : result Response :=
  Raise (Exception (py "connection refused")).

Definition empty_store : Store :=
  {| available := true; collections := ∅; calls := [] |}.

Definition offline_store : Store :=
  {| available := false; collections := ∅; calls := [] |}.

Definition example_request : ImportRequest.t :=
  {| ImportRequest.url := py "http://example.com/";
     ImportRequest.language := Some (py "en") |}.

(** The record of importing the page "Hello" into the empty store, and
    the store after it. *)
Definition hello_record : SiteContent.t :=
  {| SiteContent.source_url := py "http://example.com/";
     SiteContent.language := Some (py "en");
     SiteContent.raw_html := Some (py "Hello");
     SiteContent.raw_text := Some (py "Hello");
     SiteContent.sections := ∅;
     SiteContent.navigation := [] |}.

Definition hello_store : Store :=
  {| available := true;
     collections :=
       <["sitecontent"%string := [SiteContent.model_dump hello_record]]> ∅;
     calls := [CreateDocument "sitecontent" hello_record] |}.

(** The strings among a list of elements, each with its class. *)
Definition strings_of (l : list element) : list (string_class * pystr) :=
  flat_map (fun e => match self e with
                     | Text c v => [(c, v)]
                     | Tag _ _ _ => []
                     end) l.

Section Wording.

Variable lower : pystr -> pystr.

(** A string whose lower-cased trimmed value has a testimonial keyword. *)
Definition mentions_testimonial (e : element) : bool :=
  let low := lower (strip (text_value (self e))) in
  truthy low && any_in testimonial_keywords low.

(** Testimonials as the specification words them. *)
Definition claimed_testimonials (soup : element) : list pystr :=
  take 10 (unique_first
             (List.map parent_block
                (List.filter mentions_testimonial (find_all_text soup)))).

(** Testimonials over the parent texts that are not empty. *)
Definition testimonial_blocks (soup : element) : list pystr :=
  take 10 (unique_first
             (List.filter truthy
                (List.map parent_block
                   (List.filter mentions_testimonial (find_all_text soup))))).

(** The blocks of the headings whose title has one of the keywords. *)
Definition keyword_blocks (names keywords : list pystr) (soup : element)
  : list pystr :=
  List.map (fun h => join [10] (with_siblings 6 h))
    (List.filter (fun h => any_in keywords (lower (tag_text h)))
                 (find_all names soup)).

Definition form_blocks (soup : element) : list pystr :=
  List.filter truthy (List.map tag_text (find_all [py "form"] soup)).

(** The sections mapping, key by key. *)
Definition sections_of (soup : element) : gmap string (list pystr) :=
  set_if_any "contact"
    (form_blocks soup
     ++ keyword_blocks [py "h2"; py "h3"; py "h4"] contact_keywords soup)
    (match detected (unique_first
                       (List.filter truthy
                          (List.map parent_block
                             (List.filter mentions_testimonial
                                (find_all_text soup))))) with
     | Some t => <["testimonials"%string := take 10 t]>
     | None => id
     end
       (set_if_any "services"
          (keyword_blocks [py "h2"; py "h3"] service_keywords soup)
          (match with_siblings 3 <$> find (py "h1") soup with
           | Some h => <["hero"%string := h]> ∅
           | None => ∅
           end))).

End Wording.

(** ** The diagnostic endpoint *)

(** A value of the status report. *)
Inductive report_value :=
  | RNone
  | RStr (s : pystr)
  | RList (l : list pystr).

(** The handle [db] of the module [database], which is not among the
    sources, taken as given: reading its [name] attribute gives a value
    or raises (an [AttributeError] when it has no such attribute), and
    listing its collections gives their names or raises. *)
Record Database := {
  name_attribute : result pystr;
  list_collection_names : result (list pystr)
}.

(** The marks that open the messages: U+2705, U+274C, and U+26A0 with
    its variation selector. *)
Definition check_mark : pystr := [9989].
Definition cross_mark : pystr := [10060].
Definition warning_sign : pystr := [9888; 65039].

(** [hasattr(db, 'name')]: false on an [AttributeError], any other
    exception goes on. *)
Definition hasattr_name (db : Database) : result bool :=
  match name_attribute db with
  | Ok _ => Ok true
  | Raise (AttributeError _) => Ok false
  | Raise e => Raise e
  end.

(** Lines 33-40. *)
Definition initial_report : gmap string report_value :=
  <["backend"%string := RStr (check_mark ++ py " Running")]>
    (<["database"%string := RStr (cross_mark ++ py " Not Available")]>
       (<["database_url"%string := RNone]>
          (<["database_name"%string := RNone]>
             (<["connection_status"%string := RStr (py "Not Connected")]>
                (<["collections"%string := RList []]> ∅))))).

(** Lines 42-54, the body of the outer [try]: the report as the body
    leaves it, and the exception that ended it, if one did. *)
Definition probe (db : option Database) (response : gmap string report_value)
  : gmap string report_value * option exn :=
  match db with
  | Some d =>
      let response :=
        <["database"%string := RStr (check_mark ++ py " Available")]> response in
      let response :=
        <["database_url"%string := RStr (check_mark ++ py " Configured")]>
          response in
      match hasattr_name d with
      | Raise e => (response, Some e)
      | Ok has =>
          match (if has : bool then name_attribute d
                 else Ok (check_mark ++ py " Connected")) with
          | Raise e => (response, Some e)
          | Ok name =>
              let response :=
                <["database_name"%string := RStr name]> response in
              let response :=
                <["connection_status"%string := RStr (py "Connected")]>
                  response in
              match list_collection_names d with
              | Ok collections =>
                  let response :=
                    <["collections"%string := RList (take 10 collections)]>
                      response in
                  (<["database"%string :=
                       RStr (check_mark ++ py " Connected & Working")]> response,
                   None)
              | Raise e =>
                  (<["database"%string :=
                       RStr (warning_sign ++ py "  Connected but Error: "
                             ++ take 50 (exn_str e))]> response,
                   None)
              end
          end
      end
  | None =>
      (<["database"%string :=
           RStr (warning_sign ++ py "  Available but not initialized")]>
         response,
       None)
  end.

(** The truth value of [os.getenv(key)]: set, and not to the empty
    string. *)
Definition env_set (getenv : pystr -> option pystr) (key : pystr) : bool :=
  match getenv key with
  | Some v => truthy v
  | None => false
  end.

(** Lines 31-60. *)
Definition test_database (db : option Database)
    (getenv : pystr -> option pystr) : gmap string report_value :=
  let response := initial_report in
  let response :=
    match probe db response with
    | (response, None) => response
    | (response, Some e) =>
        <["database"%string :=
            RStr (cross_mark ++ py " Error: " ++ take 50 (exn_str e))]> response
    end in
  let response :=
    <["database_url"%string :=
        RStr (if env_set getenv (py "DATABASE_URL")
              then check_mark ++ py " Set"
              else cross_mark ++ py " Not Set")]> response in
  let response :=
    <["database_name"%string :=
        RStr (if env_set getenv (py "DATABASE_NAME")
              then check_mark ++ py " Set"
              else cross_mark ++ py " Not Set")]> response in
  response.

(** A database whose collections can be listed, one whose listing
    fails, and one whose [name] cannot be read. *)
Definition working_database : Database :=
  {| name_attribute := Ok (py "app");
     list_collection_names := Ok [py "sitecontent"; py "users"] |}.

Definition failing_database : Database :=
  {| name_attribute := Raise (AttributeError (py "name"));
     list_collection_names := Raise (Exception (py "timed out")) |}.

Definition broken_database : Database :=
  {| name_attribute := Raise (Exception (py "closed"));
     list_collection_names := Ok [] |}.

(** An environment where [DATABASE_URL] is set to the empty string and
    [DATABASE_NAME] to a name. *)
Definition example_env (key : pystr) : option pystr :=
  if bool_decide (key = py "DATABASE_URL") then Some []
  else if bool_decide (key = py "DATABASE_NAME") then Some (py "app")
  else None.

(** ** Trimmed strings *)

Definition starts_clean (s : pystr) : Prop :=
  match s with
  | [] => True
  | c :: _ => isspace c = false
  end.

Definition ends_clean (s : pystr) : Prop := starts_clean (rev s).


(** [<h2>Contact our service</h2><p>Call us</p>] *)
Definition service_contact_page : list node :=
  [mk_tag "h2" [mk_str "Contact our service"]; mk_tag "p" [mk_str "Call us"]].

(** The heading of that page, in its place in the cleaned tree. *)
Definition service_contact_heading : element :=
  {| self := mk_tag "h2" [mk_str "Contact our service"];
     parents := [self (cleaned service_contact_page)];
     next_siblings := [mk_tag "p" [mk_str "Call us"]] |}.

(** A stored document from which line 195 can build a record. *)
Definition valid_document (d : gmap string value) : bool :=
  match SiteContent.new
          (dict_get d "source_url" (VStr []))
          (dict_get d "language" VNone)
          (dict_get d "raw_html" VNone)
          (dict_get d "raw_text" VNone)
          (dict_get d "sections" (VDict ∅))
          (dict_get d "navigation" (VList []))
  with
  | Ok _ => true
  | Raise _ => false
  end.

(** A store whose only sitecontent record has a null [source_url]. *)
Definition damaged_store : Store :=
  {| available := true;
     collections :=
       <["sitecontent"%string :=
           [<["source_url"%string := VNone]> (∅ : gmap string value)]]> ∅;
     calls := [] |}.

(** ** Text of the page and text of scripts *)

(** An element that is, or lies in, a [script], a [style] or a
    [noscript] tag of the document, by the names of the tags. *)
Definition in_script_style_noscript (e : element) : bool :=
  existsb (named [py "script"; py "style"; py "noscript"]) (self e :: parents e).

(** The trimmed value of a string of the parsed document that lies in
    none of these tags. *)
Definition page_fragment (top : list node) (f : pystr) : Prop :=
  exists e,
    e ∈ descendants (soup_of top)
    /\ in_script_style_noscript e = false
    /\ is_text (self e) = true
    /\ f = strip (text_value (self e)).

(** A text that is such fragments and nothing else, joined by [sep]. *)
Definition joined_fragments (top : list node) (sep x : pystr) : Prop :=
  exists frags, x = join sep frags /\ Forall (page_fragment top) frags.

(** An entry of a section: texts of the page, joined by newlines. *)
Definition section_entry (top : list node) (x : pystr) : Prop :=
  exists parts,
    x = join [10] parts /\ Forall (joined_fragments top (py " ")) parts.

(** A navigation entry taken from an anchor of the parsed document that
    lies in none of these tags. *)
Definition page_link (top : list node) (item : NavItem) : Prop :=
  exists e attrs cs,
    e ∈ descendants (soup_of top)
    /\ in_script_style_noscript e = false
    /\ self e = Tag (py "a") attrs cs
    /\ href item = attr_get (py "href") attrs
    /\ joined_fragments top [] (label item).

(** What an element is, its contents apart. *)
Definition shape (n : node) : (pystr * list (pystr * pystr)) + (string_class * pystr) :=
  match n with
  | Tag nm attrs _ => inl (nm, attrs)
  | Text c v => inr (c, v)
  end.

Definition shapes_of (l : list element)
  : list ((pystr * list (pystr * pystr)) + (string_class * pystr)) :=
  List.map (fun e => shape (self e)) l.

(** [<h1>A</h1><script>var feedback = evil()</script><noscript>enable
    js</noscript>] *)
Definition scripted_page : list node :=
  [mk_tag "h1" [mk_str "A"];
   mk_tag "script" [Text Script (py "var feedback = evil()")];
   mk_tag "noscript" [mk_str "enable js"]].

(** [<noscript><nav><a href="/t">track</a></nav></noscript>] *)
Definition tracked_page : list node :=
  [mk_tag "noscript"
     [mk_tag "nav" [Tag (py "a") [(py "href", py "/t")] [mk_str "track"]]]].

(** ** Lists and loops *)

Lemma fold_append {A B : Type} (p : A -> bool) (f : A -> B) (l : list A)
    (start : list B) :
  fold_left (fun acc x => if p x then acc ++ [f x] else acc) l start
  = start ++ List.map f (List.filter p l).
Proof.
  revert start. induction l as [|x l IH]; intros start; simpl.
  - by rewrite app_nil_r.
  - rewrite IH. destruct (p x); simpl; [|done].
    by rewrite <- app_assoc.
Qed.

Lemma filter_map_swap {A B : Type} (f : A -> B) (q : B -> bool) (l : list A) :
  List.filter q (List.map f l) = List.map f (List.filter (fun x => q (f x)) l).
Proof.
  induction l as [|x l IH]; simpl; [done|].
  rewrite IH. by destruct (q (f x)).
Qed.

Lemma head_filter_first {A : Type} (p : A -> bool) (l : list A) (x : A) :
  head (List.filter p l) = Some x ->
  exists pre post,
    l = pre ++ x :: post /\ Forall (fun y => p y = false) pre /\ p x = true.
Proof.
  induction l as [|y l IH]; simpl; [done|].
  destruct (p y) eqn:Hy; simpl.
  - intros [= <-]. exists [], l. by repeat split.
  - intros (pre & post & -> & Hpre & Hx)%IH.
    exists (y :: pre), post. repeat split; [|done]. by apply List.Forall_cons.
Qed.

Lemma append_texts_spec (start : list pystr) (sibs : list element) :
  append_texts start sibs
  = start ++ List.filter truthy (List.map tag_text sibs).
Proof.
  unfold append_texts.
  rewrite (fold_append (fun n => truthy (tag_text n)) tag_text).
  by rewrite filter_map_swap.
Qed.

Lemma walk_tag (ps : list node) nm attrs cs sibs :
  walk ps (Tag nm attrs cs) sibs
  = Element (Tag nm attrs cs) ps sibs :: walk_contents (Tag nm attrs cs :: ps) cs.
Proof.
  simpl. f_equal. generalize (Tag nm attrs cs) as t. intros t.
  induction cs as [|c r IH]; simpl; [done|]. by rewrite IH.
Qed.

Lemma extract_all_tag names nm attrs cs :
  extract_all names (Tag nm attrs cs) = Tag nm attrs (extract_contents names cs).
Proof.
  simpl. f_equal.
  induction cs as [|c r IH]; simpl; [done|]. by rewrite IH.
Qed.

(** Every element met below a node has that node's ancestors at the end
    of its own chain. *)
Lemma walk_parents (n : node) :
  forall ps sibs e, e ∈ walk ps n sibs -> exists pre, parents e = pre ++ ps.
Proof.
  induction n as [nm attrs cs IH | c v] using node_ind; intros ps sibs e.
  - rewrite walk_tag. intros [-> | He]%elem_of_cons.
    { by exists []. }
    revert He. generalize (Tag nm attrs cs) as t. intros t.
    induction IH as [|c r Hc _ IHr]; simpl.
    + by intros ?%elem_of_nil.
    + intros [He | He]%elem_of_app; [|by apply IHr].
      destruct (Hc _ _ _ He) as [pre Hpre].
      exists (pre ++ [t]). by rewrite <- app_assoc.
  - simpl. intros ->%list_elem_of_singleton. by exists [].
Qed.

Lemma walk_contents_parents (ps : list node) (l : list node) e :
  e ∈ walk_contents ps l -> exists pre, parents e = pre ++ ps.
Proof.
  induction l as [|c r IH]; simpl.
  - by intros ?%elem_of_nil.
  - intros [He | He]%elem_of_app; [by eapply walk_parents | by apply IH].
Qed.

Lemma descendants_parent (root e : element) :
  e ∈ descendants root -> exists p, parent e = Some p.
Proof.
  intros [pre Hpre]%walk_contents_parents. unfold parent. rewrite Hpre.
  destruct pre; simpl; eauto.
Qed.

Lemma filter_both {A : Type} (p q : A -> bool) (l : list A) :
  List.filter p (List.filter q l) = List.filter (fun x => q x && p x) l.
Proof.
  induction l as [|x l IH]; simpl; [done|].
  destruct (q x); simpl; [|done]. by rewrite IH.
Qed.

Lemma filter_same {A : Type} (p q : A -> bool) (l : list A) :
  (forall x, p x = q x) -> List.filter p l = List.filter q l.
Proof.
  intros Hpq. induction l as [|x l IH]; simpl; [done|].
  by rewrite Hpq, IH.
Qed.

Lemma mem_snoc (y x : pystr) (acc : list pystr) :
  negb (mem y (acc ++ [x])) = negb (bool_decide (y = x)) && negb (mem y acc).
Proof.
  unfold mem.
  destruct (decide (y = x)) as [-> | Hne].
  - rewrite (bool_decide_eq_true_2 (x = x)) by done. simpl.
    rewrite bool_decide_eq_true_2; [done|].
    apply elem_of_app. right. by apply list_elem_of_singleton.
  - rewrite (bool_decide_eq_false_2 (y = x)) by done. simpl.
    destruct (decide (y ∈ acc)) as [Hy | Hy].
    + rewrite (bool_decide_eq_true_2 (y ∈ acc)) by done.
      rewrite bool_decide_eq_true_2; [done|]. apply elem_of_app. by left.
    + rewrite (bool_decide_eq_false_2 (y ∈ acc)) by done.
      rewrite bool_decide_eq_false_2; [done|].
      intros [? | ?%list_elem_of_singleton]%elem_of_app; done.
Qed.

(** The accumulating loop of the testimonials scan, on the candidate
    blocks alone. *)
Lemma unique_loop (cands acc : list pystr) :
  fold_left (fun a c => if mem c a then a else a ++ [c]) cands acc
  = acc ++ List.filter (fun y => negb (mem y acc)) (unique_first cands).
Proof.
  revert acc. induction cands as [|x r IH]; intros acc; simpl.
  - by rewrite app_nil_r.
  - rewrite IH, filter_both. destruct (mem x acc) eqn:Hx; simpl.
    + f_equal. apply filter_same. intros y.
      destruct (mem y acc) eqn:Hy; simpl; [by rewrite andb_false_r|].
      rewrite andb_true_r. case_bool_decide; simpl; [|done].
      subst y. congruence.
    + rewrite <- app_assoc. simpl. do 2 f_equal.
      apply filter_same. intros y. by rewrite mem_snoc.
Qed.

Lemma unique_first_all (l : list pystr) :
  List.filter (fun y => negb (mem y [])) (unique_first l) = unique_first l.
Proof.
  induction (unique_first l) as [|y r IH]; cbn [List.filter]; [done|].
  unfold mem at 1. rewrite bool_decide_eq_false_2 by apply not_elem_of_nil.
  cbn [negb]. by rewrite IH.
Qed.

Lemma unique_first_elem (l : list pystr) (x : pystr) :
  x ∈ unique_first l <-> x ∈ l.
Proof.
  induction l as [|y l IH]; simpl; [done|].
  rewrite !elem_of_cons, <- IH. split.
  - intros [-> | Hx]; [by left|]. right.
    apply list_elem_of_In, filter_In in Hx as [Hx _]. by apply list_elem_of_In.
  - intros [-> | Hx]; [by left|].
    destruct (decide (x = y)) as [-> | Hne]; [by left|]. right.
    apply list_elem_of_In, filter_In. split; [by apply list_elem_of_In|].
    by rewrite bool_decide_eq_false_2.
Qed.

Lemma filter_NoDup {A : Type} (p : A -> bool) (l : list A) :
  NoDup l -> NoDup (List.filter p l).
Proof.
  induction 1 as [|x l Hx _ IH]; simpl; [by apply NoDup_nil|].
  destruct (p x); [|done]. apply NoDup_cons. split; [|done].
  intros Hin. apply Hx.
  apply list_elem_of_In, filter_In in Hin as [Hin _]. by apply list_elem_of_In.
Qed.

Lemma unique_first_NoDup (l : list pystr) : NoDup (unique_first l).
Proof.
  induction l as [|y l IH]; simpl; [by apply NoDup_nil|].
  apply NoDup_cons. split.
  - intros Hy. apply list_elem_of_In, filter_In in Hy as [_ Hy].
    by rewrite bool_decide_eq_true_2 in Hy.
  - by apply filter_NoDup.
Qed.

Section LoopFacts.

Variable lower : pystr -> pystr.

(** The scan never meets a string without a parent, so it returns, and
    what it returns is the first occurrence of each non-empty block. *)
Lemma testimonials_loop_spec (els : list element) (acc : list pystr) :
  Forall (fun e => exists p, parent e = Some p) els ->
  testimonials_loop lower els acc
  = Ok (fold_left (fun a c => if mem c a then a else a ++ [c])
          (List.filter truthy
             (List.map parent_block
                (List.filter (mentions_testimonial lower) els)))
          acc).
Proof.
  intros Hall. revert acc.
  induction Hall as [|e r [p Hp] _ IH]; intros acc; [done|].
  change (testimonials_loop lower (e :: r) acc)
    with (if mentions_testimonial lower e then
            match parent e with
            | None =>
                Raise (AttributeError
                         (py "'NoneType' object has no attribute 'get_text'"))
            | Some p =>
                if truthy (get_text (py " ") p)
                   && negb (mem (get_text (py " ") p) acc)
                then testimonials_loop lower r (acc ++ [get_text (py " ") p])
                else testimonials_loop lower r acc
            end
          else testimonials_loop lower r acc).
  assert (Hb : get_text (py " ") p = parent_block e).
  { unfold parent_block. by rewrite Hp. }
  rewrite Hp, Hb. cbn [List.filter].
  destruct (mentions_testimonial lower e); [|apply IH].
  cbn [List.map List.filter].
  destruct (truthy (parent_block e)); cbn [andb]; [|apply IH].
  cbn [fold_left].
  destruct (mem (parent_block e) acc); cbn [negb]; apply IH.
Qed.

Lemma testimonials_of_soup (soup : element) :
  testimonials_loop lower (find_all_text soup) []
  = Ok (unique_first
          (List.filter truthy
             (List.map parent_block
                (List.filter (mentions_testimonial lower) (find_all_text soup))))).
Proof.
  rewrite testimonials_loop_spec.
  - by rewrite unique_loop, unique_first_all.
  - apply Forall_forall. intros e He.
    apply list_elem_of_In, filter_In in He as [He _].
    apply list_elem_of_In in He. by eapply descendants_parent.
Qed.

Lemma heading_blocks_spec names keywords soup :
  heading_blocks lower names keywords soup
  = keyword_blocks lower names keywords soup.
Proof.
  unfold heading_blocks, keyword_blocks.
  rewrite (fold_append (fun h => any_in keywords (lower (tag_text h)))
             (fun h => join [10] (append_texts [tag_text h] (find_next_siblings 6 h)))).
  simpl. apply map_ext. intros h. by rewrite append_texts_spec.
Qed.

Lemma contact_texts_spec soup : contact_texts soup = form_blocks soup.
Proof.
  unfold contact_texts, form_blocks.
  rewrite (fold_append (fun f => truthy (tag_text f)) tag_text).
  by rewrite filter_map_swap.
Qed.

Lemma nav_items_spec soup : nav_items soup = linked_anchors_in_nav soup.
Proof.
  unfold nav_items, linked_anchors_in_nav, select_nav_a_href.
  rewrite (fold_append (fun e => truthy (anchor_label e)) nav_entry).
  simpl. f_equal. rewrite filter_both. apply filter_same. intros e.
  unfold labelled_nav_anchor.
  destruct (named [py "a"] (self e)), (has_attr (py "href") (self e)),
    (existsb (named [py "nav"]) (parents e)), (truthy (anchor_label e)); done.
Qed.

Lemma hero_spec soup :
  hero soup = with_siblings 3 <$> find (py "h1") soup.
Proof.
  unfold hero. destruct (find (py "h1") soup) as [h1|]; simpl; [|done].
  by rewrite append_texts_spec.
Qed.

(** The extractor returns on every tree, with these three fields. *)
Lemma extract_soup_ok (top : list node) :
  extract_soup lower top
  = Ok {| raw_text :=
            get_text [10]
              (self (default (cleaned top) (find (py "body") (cleaned top))));
          sections := sections_of lower (cleaned top);
          navigation := linked_anchors_in_nav (cleaned top) |}.
Proof.
  unfold extract_soup. rewrite testimonials_of_soup. simpl.
  rewrite nav_items_spec, hero_spec, !heading_blocks_spec, contact_texts_spec.
  unfold sections_of, detected. do 3 f_equal.
  by destruct (unique_first _).
Qed.

End LoopFacts.

(** ** The sections mapping *)

Lemma lookup_set_if_any (key k : string) (v : list pystr)
    (m : gmap string (list pystr)) :
  set_if_any key v m !! k
  = if decide (key = k) then
      match detected v with Some x => Some x | None => m !! k end
    else m !! k.
Proof.
  unfold set_if_any, detected. destruct v as [|x v].
  - by destruct (decide (key = k)).
  - destruct (decide (key = k)) as [-> | Hne].
    + by rewrite lookup_insert_eq.
    + by rewrite lookup_insert_ne.
Qed.

Lemma detected_take (l : list pystr) :
  match detected l with Some t => Some (take 10 t) | None => None end
  = detected (take 10 l).
Proof. by destruct l. Qed.

Section SectionsFacts.

Variable lower : pystr -> pystr.

Lemma sections_hero soup :
  sections_of lower soup !! "hero"%string
  = with_siblings 3 <$> find (py "h1") soup.
Proof.
  unfold sections_of. rewrite lookup_set_if_any. simpl.
  destruct (detected (unique_first _)).
  - rewrite lookup_insert_ne by done. rewrite lookup_set_if_any. simpl.
    destruct (find (py "h1") soup); simpl; [by rewrite lookup_insert_eq | done].
  - simpl. rewrite lookup_set_if_any. simpl.
    destruct (find (py "h1") soup); simpl; [by rewrite lookup_insert_eq | done].
Qed.

Lemma sections_services soup :
  sections_of lower soup !! "services"%string
  = detected (keyword_blocks lower [py "h2"; py "h3"] service_keywords soup).
Proof.
  unfold sections_of. rewrite lookup_set_if_any. simpl.
  assert (Hs : forall m : gmap string (list pystr),
             m !! "services"%string = None ->
             set_if_any "services"
               (keyword_blocks lower [py "h2"; py "h3"] service_keywords soup) m
               !! "services"%string
             = detected (keyword_blocks lower [py "h2"; py "h3"]
                           service_keywords soup)).
  { intros m Hm. rewrite lookup_set_if_any. simpl. rewrite Hm.
    by destruct (detected _). }
  assert (Hh : match with_siblings 3 <$> find (py "h1") soup with
               | Some h => <["hero"%string := h]> (∅ : gmap string (list pystr))
               | None => ∅
               end !! "services"%string = None).
  { by destruct (find (py "h1") soup). }
  destruct (detected (unique_first _)).
  - rewrite lookup_insert_ne by done. by apply Hs.
  - by apply Hs.
Qed.

Lemma sections_testimonials soup :
  sections_of lower soup !! "testimonials"%string
  = detected (testimonial_blocks lower soup).
Proof.
  unfold sections_of, testimonial_blocks.
  rewrite lookup_set_if_any. simpl. rewrite <- detected_take.
  destruct (detected (unique_first _)).
  - by rewrite lookup_insert_eq.
  - simpl. rewrite lookup_set_if_any. simpl.
    by destruct (find (py "h1") soup).
Qed.

Lemma sections_contact soup :
  sections_of lower soup !! "contact"%string
  = detected (form_blocks soup
              ++ keyword_blocks lower [py "h2"; py "h3"; py "h4"]
                   contact_keywords soup).
Proof.
  unfold sections_of. rewrite lookup_set_if_any. simpl.
  destruct (detected (form_blocks soup ++ _)); [done|].
  destruct (detected (unique_first _)).
  - rewrite lookup_insert_ne by done. rewrite lookup_set_if_any. simpl.
    by destruct (find (py "h1") soup).
  - simpl. rewrite lookup_set_if_any. simpl.
    by destruct (find (py "h1") soup).
Qed.

Lemma sections_other soup (k : string) :
  k ≠ "hero"%string -> k ≠ "services"%string ->
  k ≠ "testimonials"%string -> k ≠ "contact"%string ->
  sections_of lower soup !! k = None.
Proof.
  intros H1 H2 H3 H4. unfold sections_of.
  rewrite lookup_set_if_any. destruct (decide _) as [<- | _]; [done|].
  destruct (detected (unique_first _)).
  - rewrite lookup_insert_ne by done. rewrite lookup_set_if_any.
    destruct (decide _) as [<- | _]; [done|].
    destruct (find (py "h1") soup); simpl; [by rewrite lookup_insert_ne | done].
  - simpl. rewrite lookup_set_if_any.
    destruct (decide _) as [<- | _]; [done|].
    destruct (find (py "h1") soup); simpl; [by rewrite lookup_insert_ne | done].
Qed.

Lemma detected_nonempty (l v : list pystr) : detected l = Some v -> v ≠ [].
Proof. destruct l; [done|]. by intros [= <-]. Qed.

End SectionsFacts.

(** ** The removal of script, style and noscript *)

Lemma named_extract_all names n :
  named names (extract_all names n) = named names n.
Proof. by destruct n. Qed.

Lemma extract_contents_idem names (l : list node) :
  extract_contents names (extract_contents names l) = extract_contents names l.
Proof.
  assert (Hn : forall n, extract_all names (extract_all names n)
                         = extract_all names n).
  { induction n as [nm attrs cs IH | c v] using node_ind; [|done].
    rewrite !extract_all_tag. f_equal.
    induction IH as [|c r Hc _ IHr]; simpl; [done|].
    destruct (named names c) eqn:Hnc; [done|]. simpl.
    by rewrite named_extract_all, Hnc, Hc, IHr. }
  induction l as [|c r IH]; simpl; [done|].
  destruct (named names c) eqn:Hnc; [done|]. simpl.
  by rewrite named_extract_all, Hnc, Hn, IH.
Qed.

Lemma hidden_below (ps : list node) (l : list node) e :
  existsb (named removed_names) ps = true ->
  e ∈ walk_contents ps l -> hidden e = true.
Proof.
  intros Hps [pre Hpre]%walk_contents_parents. unfold hidden.
  rewrite Hpre, existsb_app, Hps. by rewrite !orb_true_r.
Qed.

Lemma filter_nil_all {A : Type} (p : A -> bool) (l : list A) :
  (forall x, x ∈ l -> p x = false) -> List.filter p l = [].
Proof.
  induction l as [|x l IH]; intros Hall; simpl; [done|].
  rewrite (Hall x) by (by left). apply IH. intros y Hy. apply Hall. by right.
Qed.

Lemma filter_app_list {A : Type} (p : A -> bool) (l1 l2 : list A) :
  List.filter p (l1 ++ l2) = List.filter p l1 ++ List.filter p l2.
Proof.
  induction l1 as [|x l1 IH]; simpl; [done|].
  destruct (p x); simpl; by rewrite IH.
Qed.

Lemma strings_of_app (l1 l2 : list element) :
  strings_of (l1 ++ l2) = strings_of l1 ++ strings_of l2.
Proof. unfold strings_of. by rewrite flat_map_app. Qed.

(** Below a removed tag nothing is visible. *)
Lemma visible_below_removed (ps : list node) (n : node) sibs :
  named removed_names n = true ->
  List.filter (fun e => negb (hidden e)) (walk ps n sibs) = [].
Proof.
  intros Hn. apply filter_nil_all. intros e He.
  destruct n as [nm attrs cs | c v]; [|done].
  rewrite walk_tag in He. apply elem_of_cons in He as [-> | He].
  - unfold hidden. simpl in *. by rewrite Hn.
  - erewrite hidden_below; [done | | exact He]. simpl in *. by rewrite Hn.
Qed.

(** What is left of a node after the removal is what was visible. *)
Lemma strings_of_extract_all (n : node) :
  forall ps ps' sibs sibs',
    existsb (named removed_names) ps = false ->
    named removed_names n = false ->
    strings_of (walk ps' (extract_all removed_names n) sibs')
    = strings_of (List.filter (fun e => negb (hidden e)) (walk ps n sibs)).
Proof.
  induction n as [nm attrs cs IH | c v] using node_ind;
    intros ps ps' sibs sibs' Hps Hn.
  - rewrite extract_all_tag, !walk_tag. cbn [List.filter].
    unfold hidden at 1. cbn [self parents]. rewrite Hn, Hps. cbn [orb negb].
    change (strings_of (?e :: ?l)) with (strings_of [e] ++ strings_of l).
    f_equal.
    assert (Hps' : existsb (named removed_names) (Tag nm attrs cs :: ps) = false).
    { cbn [existsb]. by rewrite Hn, Hps. }
    revert Hps'. generalize (Tag nm attrs cs :: ps) as qs.
    generalize (Tag nm attrs (extract_contents removed_names cs) :: ps') as qs'.
    intros qs' qs Hqs. clear Hn.
    induction IH as [|c r Hc _ IHr]; [done|].
    cbn [extract_contents walk_contents].
    rewrite filter_app_list, strings_of_app.
    destruct (named removed_names c) eqn:Hc'.
    + rewrite visible_below_removed by done. simpl. apply IHr.
    + cbn [walk_contents]. rewrite strings_of_app. f_equal; [|apply IHr].
      by apply Hc.
  - simpl. unfold hidden. simpl. by rewrite Hps.
Qed.

Lemma strings_of_extract_contents (l : list node) :
  forall ps ps',
    existsb (named removed_names) ps = false ->
    strings_of (walk_contents ps' (extract_contents removed_names l))
    = strings_of (List.filter (fun e => negb (hidden e)) (walk_contents ps l)).
Proof.
  intros ps ps' Hps. induction l as [|c r IH]; [done|].
  cbn [extract_contents walk_contents].
  rewrite filter_app_list, strings_of_app.
  destruct (named removed_names c) eqn:Hc.
  - rewrite visible_below_removed by done. simpl. apply IH.
  - cbn [walk_contents]. rewrite strings_of_app. f_equal; [|apply IH].
    by apply strings_of_extract_all.
Qed.

(** No element of the cleaned tree is, or lies in, a removed tag. *)
Lemma extract_all_clean (n : node) :
  forall ps sibs,
    existsb (named removed_names) ps = false ->
    named removed_names n = false ->
    Forall (fun e => hidden e = false)
           (walk ps (extract_all removed_names n) sibs).
Proof.
  induction n as [nm attrs cs IH | c v] using node_ind; intros ps sibs Hps Hn.
  - rewrite extract_all_tag, walk_tag. apply List.Forall_cons.
    { unfold hidden. cbn [self parents]. simpl in *. by rewrite Hn, Hps. }
    assert (Hps' : existsb (named removed_names)
                     (Tag nm attrs (extract_contents removed_names cs) :: ps)
                   = false).
    { cbn [existsb]. simpl in *. by rewrite Hn, Hps. }
    revert Hps'.
    generalize (Tag nm attrs (extract_contents removed_names cs) :: ps) as qs.
    intros qs Hqs. clear Hn.
    induction IH as [|c r Hc _ IHr]; [by apply List.Forall_nil|].
    cbn [extract_contents].
    destruct (named removed_names c) eqn:Hc'; [apply IHr|].
    cbn [walk_contents]. apply Forall_app. split; [by apply Hc | apply IHr].
  - simpl. apply List.Forall_cons; [|by apply List.Forall_nil].
    unfold hidden. simpl. by rewrite Hps.
Qed.

Lemma cleaned_has_no_removed (top : list node) :
  Forall (fun e => hidden e = false) (descendants (cleaned top)).
Proof.
  unfold descendants, cleaned, soup_of. cbn [self parents contents_of].
  generalize (eq_refl : existsb (named removed_names)
                          [Tag (py "[document]") []
                             (extract_contents removed_names top)] = false).
  generalize [Tag (py "[document]") [] (extract_contents removed_names top)] as qs.
  intros qs Hqs.
  induction top as [|c r IH]; [by apply List.Forall_nil|].
  cbn [extract_contents].
  destruct (named removed_names c) eqn:Hc; [apply IH|].
  cbn [walk_contents]. apply Forall_app. split; [|apply IH].
  by apply extract_all_clean.
Qed.

Lemma cleaned_strings (top : list node) :
  strings_of (descendants (cleaned top))
  = strings_of (List.filter (fun e => negb (hidden e))
                            (descendants (soup_of top))).
Proof. by apply strings_of_extract_contents. Qed.

(** ** The extractor: claims *)

(** On markup the parser accepts, the extractor returns these fields. *)
Lemma extract_parsed (BeautifulSoup : pystr -> result (list node))
    (lower : pystr -> pystr) (html : pystr) (top : list node) :
  BeautifulSoup html = Ok top ->
  extract_text_and_sections BeautifulSoup lower html
  = Ok {| raw_text :=
            get_text [10]
              (self (default (cleaned top) (find (py "body") (cleaned top))));
          sections := sections_of lower (cleaned top);
          navigation := linked_anchors_in_nav (cleaned top) |}.
Proof.
  intros Hparse. unfold extract_text_and_sections. rewrite Hparse.
  apply extract_soup_ok.
Qed.

(** On markup the parser rejects, its exception leaves the extractor. *)
Lemma extract_rejected (BeautifulSoup : pystr -> result (list node))
    (lower : pystr -> pystr) (html : pystr) (e : exn) :
  BeautifulSoup html = Raise e ->
  extract_text_and_sections BeautifulSoup lower html = Raise e.
Proof. intros Hparse. unfold extract_text_and_sections. by rewrite Hparse. Qed.

Section ExtractorClaims.

Variable BeautifulSoup : pystr -> result (list node).
Variable lower : pystr -> pystr.

(** C1, as the code has it. For every input [html] the parser accepts,
    whatever tree it builds from it, [extract_text_and_sections] returns
    a result with its three fields and raises nothing; for an input the
    parser rejects, the parser's exception leaves the function. On a
    document without any content the text is empty, no section is
    present and the navigation is empty, and on a document that is one
    string without tags the text is that string. *)
Theorem extract_text_and_sections_returns (html : pystr) :
  match BeautifulSoup html with
  | Ok top =>
      exists r,
        extract_text_and_sections BeautifulSoup lower html = Ok r
        /\ extract_soup lower top = Ok r
  | Raise e => extract_text_and_sections BeautifulSoup lower html = Raise e
  end
  /\ extract_soup lower []
     = Ok {| raw_text := []; sections := ∅; navigation := [] |}
  /\ extract_text_and_sections text_only_parser lower_latin_cyrillic
       (py " Hello ")
     = Ok {| raw_text := py "Hello"; sections := ∅; navigation := [] |}.
Proof.
  split; [|split; [done | by vm_compute]].
  destruct (BeautifulSoup html) as [top | e] eqn:Hparse;
    [|by apply extract_rejected].
  rewrite (extract_parsed _ _ _ _ Hparse), extract_soup_ok. eauto.
Qed.

(** C4, as the code has it. For every input [html] the parser accepts, the navigation holds
    one entry (label, href) for every anchor that lies below a [nav]
    tag, carries an [href] attribute and has a non-empty label, in
    document order and without deduplication; an anchor without [href]
    gives no entry. For [<nav><a href="/x">Home</a></nav>] the
    navigation is the single entry (Home, /x). *)
Theorem navigation_lists_linked_anchors (html : pystr) :
  match BeautifulSoup html with
  | Ok top =>
      exists r,
        extract_text_and_sections BeautifulSoup lower html = Ok r
        /\ navigation r = linked_anchors_in_nav (cleaned top)
  | Raise e => extract_text_and_sections BeautifulSoup lower html = Raise e
  end
  /\ (exists r,
        extract_soup lower nav_page = Ok r
        /\ navigation r = [{| label := py "Home"; href := Some (py "/x") |}]).
Proof.
  split.
  - destruct (BeautifulSoup html) as [top | e] eqn:Hparse;
      [|by apply extract_rejected].
    rewrite (extract_parsed _ _ _ _ Hparse). eauto.
  - rewrite extract_soup_ok. eexists. split; [done|].
    cbn [raw_text navigation]. by vm_compute.
Qed.

(** C10. For every input [html] the parser accepts, every entry of the navigation has an
    [href] that is not null and a label that is not empty: it comes from
    an anchor below a [nav] that carries the attribute. *)
Theorem navigation_entries_have_href (html : pystr) :
  match BeautifulSoup html with
  | Ok top =>
      exists r,
        extract_text_and_sections BeautifulSoup lower html = Ok r
        /\ Forall (fun item => is_Some (href item)
                               /\ truthy (label item) = true)
             (navigation r)
  | Raise e => extract_text_and_sections BeautifulSoup lower html = Raise e
  end.
Proof.
  destruct (BeautifulSoup html) as [top | e] eqn:Hparse;
    [|by apply extract_rejected].
  rewrite (extract_parsed _ _ _ _ Hparse).
  eexists. split; [done|]. cbn [navigation].
  unfold linked_anchors_in_nav. apply Forall_forall. intros item Hitem.
  apply list_elem_of_In, in_map_iff in Hitem as (e & <- & He).
  apply filter_In in He as [_ He].
  apply andb_prop in He as [Hl Hh]. unfold labelled_nav_anchor in Hl.
  apply andb_prop in Hl as [_ Hl]. split; [|done].
  unfold nav_entry, has_attr in *. cbn [href].
  by destruct (get (py "href") (self e)).
Qed.

(** C5. For every input [html] the parser accepts, when the document has an [h1] the hero
    section is the text of the first one in document order followed by
    the non-empty texts of the first three sibling tags after it, and
    when it has none the [hero] key is absent. For
    [<h1>A</h1><p>B</p><p>C</p><p>D</p><p>E</p>] the hero is A, B, C, D. *)
Theorem hero_is_first_h1_and_three_siblings (html : pystr) :
  match BeautifulSoup html with
  | Ok top =>
      exists r,
        extract_text_and_sections BeautifulSoup lower html = Ok r
        /\ match find (py "h1") (cleaned top) with
           | Some h1 =>
               sections r !! "hero"%string
               = Some (tag_text h1
                       :: List.filter truthy
                            (List.map tag_text (take 3 (sibling_tags h1))))
               /\ named [py "h1"] (self h1) = true
               /\ exists before after,
                   descendants (cleaned top) = before ++ h1 :: after
                   /\ Forall (fun e => named [py "h1"] (self e) = false)
                        before
           | None =>
               sections r !! "hero"%string = None
               /\ Forall (fun e => named [py "h1"] (self e) = false)
                    (descendants (cleaned top))
           end
  | Raise e => extract_text_and_sections BeautifulSoup lower html = Raise e
  end
  /\ (exists r,
        extract_soup lower hero_page = Ok r
        /\ sections r !! "hero"%string = Some [py "A"; py "B"; py "C"; py "D"]).
Proof.
  split.
  - destruct (BeautifulSoup html) as [top | e] eqn:Hparse;
      [|by apply extract_rejected].
    rewrite (extract_parsed _ _ _ _ Hparse).
    eexists. split; [done|]. cbn [sections]. rewrite sections_hero.
    destruct (find (py "h1") (cleaned top)) as [h1|] eqn:Hfind.
    + split; [done|].
      apply head_filter_first in Hfind as (pre & post & Hd & Hpre & Hh).
      split; [done|]. by exists pre, post.
    + split; [done|]. apply Forall_forall. intros e He.
      destruct (named [py "h1"] (self e)) eqn:Hn; [|done].
      assert (Hin : In e (find_all [py "h1"] (cleaned top))).
      { apply filter_In. split; [by apply list_elem_of_In | done]. }
      unfold find in Hfind.
      destruct (find_all [py "h1"] (cleaned top)); [|done].
      destruct Hin.
  - rewrite extract_soup_ok. eexists. split; [done|].
    cbn [sections]. rewrite sections_hero. by vm_compute.
Qed.

(** C8. For every input [html] the parser accepts, the keys of the sections mapping are
    among hero, services, testimonials and contact, no key holds an
    empty sequence, and each key is present exactly when its heuristic
    found content. *)
Theorem sections_keys_are_the_four_categories (html : pystr) :
  match BeautifulSoup html with
  | Ok top =>
      exists r,
        extract_text_and_sections BeautifulSoup lower html = Ok r
        /\ dom (sections r)
           ⊆ ({["hero"%string]} ∪ {["services"%string]}
              ∪ {["testimonials"%string]} ∪ {["contact"%string]}
              : gset string)
        /\ map_Forall (fun _ v => v <> []) (sections r)
        /\ sections r !! "hero"%string
           = with_siblings 3 <$> find (py "h1") (cleaned top)
        /\ sections r !! "services"%string
           = detected (keyword_blocks lower [py "h2"; py "h3"]
                         service_keywords (cleaned top))
        /\ sections r !! "testimonials"%string
           = detected (testimonial_blocks lower (cleaned top))
        /\ sections r !! "contact"%string
           = detected (form_blocks (cleaned top)
                       ++ keyword_blocks lower [py "h2"; py "h3"; py "h4"]
                            contact_keywords (cleaned top))
  | Raise e => extract_text_and_sections BeautifulSoup lower html = Raise e
  end.
Proof.
  destruct (BeautifulSoup html) as [top | e] eqn:Hparse;
    [|by apply extract_rejected].
  rewrite (extract_parsed _ _ _ _ Hparse).
  eexists. split; [done|]. cbn [sections].
  set (soup := cleaned top).
  assert (Hkeys : forall k v, sections_of lower soup !! k = Some v ->
            (k = "hero"%string \/ k = "services"%string
             \/ k = "testimonials"%string \/ k = "contact"%string)
            /\ v <> []).
  { intros k v Hk.
    destruct (decide (k = "hero"%string)) as [-> | H1].
    { split; [by left|]. rewrite sections_hero in Hk.
      destruct (find (py "h1") soup); [|done]. by injection Hk as <-. }
    destruct (decide (k = "services"%string)) as [-> | H2].
    { split; [by right; left|]. rewrite sections_services in Hk.
      by eapply detected_nonempty. }
    destruct (decide (k = "testimonials"%string)) as [-> | H3].
    { split; [by right; right; left|]. rewrite sections_testimonials in Hk.
      by eapply detected_nonempty. }
    destruct (decide (k = "contact"%string)) as [-> | H4].
    { split; [by right; right; right|]. rewrite sections_contact in Hk.
      by eapply detected_nonempty. }
    by rewrite sections_other in Hk. }
  split; [|split].
  - intros k [v Hk]%elem_of_dom. destruct (Hkeys k v Hk) as [Hk' _].
    rewrite !elem_of_union, !elem_of_singleton. tauto.
  - intros k v Hk. by destruct (Hkeys k v Hk).
  - by rewrite sections_hero, sections_services, sections_testimonials,
      sections_contact.
Qed.

(** C7, as the code has it. For every input [html] the parser accepts, the testimonials
    section consists of the non-empty parent-element texts of the
    strings whose lower-cased trimmed value has a testimonial keyword,
    first occurrences only and in the order met, cut to the first ten:
    it has no block twice and at most ten blocks, and the key is absent
    when there is none. Two identical blocks "Отзывы: great service"
    give a single entry. *)
Theorem testimonials_are_unique_nonempty_blocks (html : pystr) :
  match BeautifulSoup html with
  | Ok top =>
      exists r,
        extract_text_and_sections BeautifulSoup lower html = Ok r
        /\ sections r !! "testimonials"%string
           = detected
               (take 10
                  (unique_first
                     (List.filter truthy
                        (List.map parent_block
                           (List.filter (mentions_testimonial lower)
                              (find_all_text (cleaned top)))))))
        /\ from_option
             (fun blocks => NoDup blocks /\ (length blocks <= 10)%nat
                            /\ Forall (fun b => truthy b = true) blocks)
             True (sections r !! "testimonials"%string)
  | Raise e => extract_text_and_sections BeautifulSoup lower html = Raise e
  end
  /\ (exists r,
        extract_soup lower_latin_cyrillic testimonial_page = Ok r
        /\ sections r !! "testimonials"%string = Some [great_service]).
Proof.
  split.
  - destruct (BeautifulSoup html) as [top | e] eqn:Hparse;
      [|by apply extract_rejected].
    rewrite (extract_parsed _ _ _ _ Hparse).
    eexists. split; [done|]. cbn [sections]. rewrite sections_testimonials.
    split; [done|]. unfold testimonial_blocks.
    set (cands := List.filter truthy _).
    destruct (detected (take 10 (unique_first cands))) as [blocks|] eqn:Hd;
      [|done].
    assert (Hb : blocks = take 10 (unique_first cands)).
    { destruct (take 10 (unique_first cands)); [done|]. by injection Hd. }
    rewrite Hb. cbn [from_option]. split; [|split].
    + eapply sublist_NoDup; [apply unique_first_NoDup | apply sublist_take].
    + apply firstn_le_length.
    + apply Forall_forall. intros b Hin.
      assert (Hc : b ∈ cands).
      { apply unique_first_elem. eapply elem_of_sublist; [exact Hin|].
        apply sublist_take. }
      apply list_elem_of_In, filter_In in Hc as [_ Hc]. exact Hc.
  - rewrite extract_soup_ok. eexists. split; [done|]. cbn [sections].
    rewrite sections_testimonials. by vm_compute.
Qed.

End ExtractorClaims.

(** C4, as stated, fails: the anchor of [<nav><a>Home</a></nav>] lies
    below a [nav] and has the label "Home", yet the navigation has no
    entry for it. *)
Lemma anchor_without_href_is_not_listed :
  exists r,
    extract_soup lower_latin_cyrillic nav_page_without_href = Ok r
    /\ navigation r = []
    /\ anchors_in_nav (cleaned nav_page_without_href)
       = [{| label := py "Home"; href := None |}]
    /\ navigation r <> anchors_in_nav (cleaned nav_page_without_href).
Proof.
  rewrite extract_soup_ok. eexists. split; [done|]. by vm_compute.
Qed.

(** C7, as stated, fails: the comment of [<div><!-- feedback --></div>]
    is a string with a testimonial keyword and its parent's text is
    empty, yet no testimonials section holds that empty block. Nor are
    comments passed over: in [<div><!-- feedback -->Hello</div>] no
    string of the page text has a keyword, yet "Hello" is a testimonial. *)
Lemma empty_parent_block_is_skipped :
  (exists r,
      extract_soup lower_latin_cyrillic comment_page = Ok r
      /\ sections r !! "testimonials"%string = None
      /\ claimed_testimonials lower_latin_cyrillic (cleaned comment_page) = [[]]
      /\ sections r !! "testimonials"%string
         <> Some (claimed_testimonials lower_latin_cyrillic (cleaned comment_page)))
  /\ (exists r,
        extract_soup lower_latin_cyrillic comment_and_text_page = Ok r
        /\ sections r !! "testimonials"%string = Some [py "Hello"]
        /\ List.filter
             (fun e => is_plain e && mentions_testimonial lower_latin_cyrillic e)
             (find_all_text (cleaned comment_and_text_page)) = []).
Proof.
  split.
  - rewrite extract_soup_ok. eexists. split; [done|]. cbn [sections].
    rewrite sections_testimonials. by vm_compute.
  - rewrite extract_soup_ok. eexists. split; [done|]. cbn [sections].
    rewrite sections_testimonials. by vm_compute.
Qed.

(** ** The API operations: claims *)

Lemma new_of_model_dump (d : SiteContent.t) :
  SiteContent.new
    (dict_get (SiteContent.model_dump d) "source_url" (VStr []))
    (dict_get (SiteContent.model_dump d) "language" VNone)
    (dict_get (SiteContent.model_dump d) "raw_html" VNone)
    (dict_get (SiteContent.model_dump d) "raw_text" VNone)
    (dict_get (SiteContent.model_dump d) "sections" (VDict ∅))
    (dict_get (SiteContent.model_dump d) "navigation" (VList []))
  = Ok d.
Proof.
  destruct d as [u l h x s n]. unfold dict_get, SiteContent.model_dump.
  cbn [SiteContent.source_url SiteContent.language SiteContent.raw_html
       SiteContent.raw_text SiteContent.sections SiteContent.navigation].
  repeat (rewrite lookup_insert_eq || rewrite lookup_insert_ne by done).
  by destruct l, h, x.
Qed.

Section ApiClaims.

Variable BeautifulSoup : pystr -> result (list node).
Variable lower : pystr -> pystr.
Variable requests_get : pystr -> result Response.

(** The record an import builds from a fetched page the parser accepts. *)
Lemma built_record (req : ImportRequest.t) (resp : Response)
    (top : list node) :
  BeautifulSoup (text resp) = Ok top ->
  exists doc,
    (extracted ← extract_text_and_sections BeautifulSoup lower (text resp);
     SiteContent.new
       (VStr (ImportRequest.url req))
       (SiteContent.of_option (ImportRequest.language req))
       (VStr (text resp))
       (VStr (raw_text extracted))
       (VDict (sections extracted))
       (VList (navigation extracted)))
    = Ok doc.
Proof.
  intros Hparse. rewrite (extract_parsed _ _ _ _ Hparse).
  destruct req as [u [l|]]; simpl; eauto.
Qed.

(** No record is built from a page the parser rejects. *)
Lemma no_record (req : ImportRequest.t) (resp : Response) (e : exn) :
  BeautifulSoup (text resp) = Raise e ->
  (extracted ← extract_text_and_sections BeautifulSoup lower (text resp);
   SiteContent.new
     (VStr (ImportRequest.url req))
     (SiteContent.of_option (ImportRequest.language req))
     (VStr (text resp))
     (VStr (raw_text extracted))
     (VDict (sections extracted))
     (VList (navigation extracted)))
  = Raise e.
Proof. intros Hparse. by rewrite (extract_rejected _ _ _ _ Hparse). Qed.

(** The status of the answer to an import, case by case. *)
Lemma import_status (req : ImportRequest.t) (st : Store) :
  http_status (import_content BeautifulSoup lower requests_get req st).1
  = match requests_get (ImportRequest.url req) with
    | Raise _ => 400%Z
    | Ok resp =>
        if negb (status_code resp =? 200)%Z then status_code resp
        else
          match BeautifulSoup (text resp) with
          | Ok _ => if available st then 200%Z else 500%Z
          | Raise e => http_status (@Raise SiteContent.t e)
          end
    end.
Proof.
  unfold import_content.
  destruct (requests_get (ImportRequest.url req)) as [resp | e]; [|done].
  destruct (negb (status_code resp =? 200)%Z); [done|].
  destruct (BeautifulSoup (text resp)) as [top | e] eqn:Hparse.
  - destruct (built_record req resp top Hparse) as [doc ->].
    unfold create_document. by destruct (available st).
  - by rewrite (no_record req resp e Hparse).
Qed.

(** C2, as the code has it. For every import request: when the fetch
    raises, the answer has status 400; when the upstream answers with a
    status other than 200, the answer has that same status; when the
    fetch succeeded with 200 and the store fails, the answer has status
    500. A body the parser rejects never reaches the store: the
    parser's exception is answered as any exception that is not handled. *)
Theorem import_error_statuses (req : ImportRequest.t) (st : Store) :
  match requests_get (ImportRequest.url req) with
  | Raise _ => http_status (import_content BeautifulSoup lower requests_get req st).1 = 400%Z
  | Ok resp =>
      if bool_decide (status_code resp = 200%Z) then
        match BeautifulSoup (text resp) with
        | Ok _ =>
            if available st then http_status (import_content BeautifulSoup lower requests_get req st).1 = 200%Z
            else http_status (import_content BeautifulSoup lower requests_get req st).1 = 500%Z
        | Raise e =>
            http_status (import_content BeautifulSoup lower requests_get req st).1
            = http_status (@Raise SiteContent.t e)
        end
      else http_status (import_content BeautifulSoup lower requests_get req st).1 = status_code resp
  end.
Proof.
  rewrite import_status.
  destruct (requests_get (ImportRequest.url req)) as [resp | e]; [|done].
  case_bool_decide as Hc.
  - rewrite Hc. simpl. destruct (BeautifulSoup (text resp)); [|done].
    by destruct (available st).
  - apply Z.eqb_neq in Hc. by rewrite Hc.
Qed.

(** C3. For every import request whose fetch returns status 404, the
    import raises an error of status 404, in the 400 class, whose
    message has "404" in it, and the store is left as it was: no call to
    it is made and no record is added. *)
Theorem import_of_missing_page (req : ImportRequest.t) (st : Store)
    (resp : Response) :
  requests_get (ImportRequest.url req) = Ok resp ->
  status_code resp = 404%Z ->
  import_content BeautifulSoup lower requests_get req st
  = (Raise (HTTPException 404 (py "Upstream returned 404")), st)
  /\ contains (py "404") (py "Upstream returned 404") = true
  /\ (400 <= http_status
               (import_content BeautifulSoup lower requests_get req st).1
      < 500)%Z
  /\ calls (import_content BeautifulSoup lower requests_get req st).2
     = calls st
  /\ collections (import_content BeautifulSoup lower requests_get req st).2
     = collections st.
Proof.
  intros Hget Hcode.
  assert (H : import_content BeautifulSoup lower requests_get req st
              = (Raise (HTTPException 404 (py "Upstream returned 404")), st)).
  { unfold import_content. rewrite Hget, Hcode. reflexivity. }
  rewrite H. cbn [fst snd http_status]. split; [done|]. split; [by vm_compute|].
  split; [lia | done].
Qed.

(** What a successful import leaves in the store. *)
Lemma import_content_stores (req : ImportRequest.t) (st st' : Store)
    (doc : SiteContent.t) :
  import_content BeautifulSoup lower requests_get req st = (Ok doc, st') ->
  available st' = true
  /\ records "sitecontent" st'
     = records "sitecontent" st ++ [SiteContent.model_dump doc].
Proof.
  unfold import_content.
  destruct (requests_get (ImportRequest.url req)) as [resp | e]; [|done].
  destruct (negb (status_code resp =? 200)%Z); [done|].
  destruct (BeautifulSoup (text resp)) as [top | e] eqn:Hparse;
    [|by rewrite (no_record req resp e Hparse)].
  destruct (built_record req resp top Hparse) as [d ->].
  unfold create_document. destruct (available st); [|done].
  intros [= <- <-]. split; [done|].
  unfold records at 1. cbn [collections]. by rewrite lookup_insert_eq.
Qed.

Lemma to_models_head (d : SiteContent.t) (rest : list (gmap string value))
    (out : list SiteContent.t) :
  to_models (SiteContent.model_dump d :: rest) = Ok out -> head out = Some d.
Proof.
  cbn [to_models]. rewrite new_of_model_dump.
  destruct (to_models rest) as [ms | e]; simpl; [|done].
  by intros [= <-].
Qed.

(** C9. For every successful import, the content endpoint, asked for
    the latest record, returns the record the import returned, equal in
    all of its fields; asked for more records, it returns that record
    among them. *)
Theorem content_returns_the_imported_record (req : ImportRequest.t)
    (st st' : Store) (doc : SiteContent.t) :
  import_content BeautifulSoup lower requests_get req st = (Ok doc, st') ->
  (get_latest_content 1 st').1 = Ok [doc]
  /\ forall limit out,
      (1 <= limit)%Z ->
      (get_latest_content limit st').1 = Ok out -> doc ∈ out.
Proof.
  intros [Hav Hrec]%import_content_stores.
  unfold get_latest_content, get_documents. rewrite Hav, Hrec.
  rewrite rev_app_distr. split.
  - change (take (Z.to_nat 1) (rev [SiteContent.model_dump doc]
                               ++ rev (records "sitecontent" st)))
      with [SiteContent.model_dump doc].
    cbn [to_models]. by rewrite new_of_model_dump.
  - intros limit out Hlimit.
    destruct (Z.to_nat limit) as [|n] eqn:Hn; [lia|].
    cbn [rev app take].
    destruct (to_models _) as [ms | e] eqn:Hms; simpl; [|done].
    intros [= <-]. apply to_models_head in Hms.
    destruct ms as [|m ms]; [done|]. injection Hms as ->. by left.
Qed.

End ApiClaims.

(** C2, as stated, fails: when the upstream answers 503 the import
    answers 503, not 400. *)
Lemma upstream_status_is_passed_on :
  http_status
    (import_content text_only_parser lower_latin_cyrillic (answering 503 [])
       example_request empty_store).1 = 503%Z
  /\ http_status
       (import_content text_only_parser lower_latin_cyrillic (answering 503 [])
          example_request empty_store).1 <> 400%Z.
Proof. by vm_compute. Qed.

Lemma import_of_missing_page_witness :
  answering 404 [] (ImportRequest.url example_request)
  = Ok {| status_code := 404; text := [] |}
  /\ status_code {| status_code := 404; text := [] |} = 404%Z
  /\ (import_content text_only_parser lower_latin_cyrillic (answering 404 [])
        example_request empty_store
      = (Raise (HTTPException 404 (py "Upstream returned 404")), empty_store)
      /\ contains (py "404") (py "Upstream returned 404") = true
      /\ (400 <= http_status
                   (import_content text_only_parser lower_latin_cyrillic
                      (answering 404 []) example_request empty_store).1
          < 500)%Z
      /\ calls (import_content text_only_parser lower_latin_cyrillic
                  (answering 404 []) example_request empty_store).2
         = calls empty_store
      /\ collections (import_content text_only_parser lower_latin_cyrillic
                        (answering 404 []) example_request empty_store).2
         = collections empty_store).
Proof.
  split; [reflexivity|]. split; [reflexivity|].
  apply (import_of_missing_page text_only_parser lower_latin_cyrillic
           (answering 404 []) example_request empty_store
           {| status_code := 404; text := [] |}); reflexivity.
Defined.

Lemma content_returns_the_imported_record_witness :
  import_content text_only_parser lower_latin_cyrillic
    (answering 200 (py "Hello")) example_request empty_store
  = (Ok hello_record, hello_store)
  /\ (get_latest_content 1 hello_store).1 = Ok [hello_record]
  /\ forall limit out,
      (1 <= limit)%Z ->
      (get_latest_content limit hello_store).1 = Ok out ->
      hello_record ∈ out.
Proof.
  assert (H : import_content text_only_parser lower_latin_cyrillic
                (answering 200 (py "Hello")) example_request empty_store
              = (Ok hello_record, hello_store)) by (vm_compute; reflexivity).
  split; [exact H|].
  exact (content_returns_the_imported_record text_only_parser
           lower_latin_cyrillic (answering 200 (py "Hello")) example_request
           empty_store hello_store hello_record H).
Defined.

(** The three error paths of an import, on concrete requests. *)
Example import_error_paths :
  http_status
    (import_content text_only_parser lower_latin_cyrillic unreachable
       example_request empty_store).1 = 400%Z
  /\ http_status
       (import_content text_only_parser lower_latin_cyrillic
          (answering 404 (py "gone")) example_request empty_store).1 = 404%Z
  /\ http_status
       (import_content text_only_parser lower_latin_cyrillic
          (answering 200 (py "Hello")) example_request offline_store).1 = 500%Z
  /\ (import_content text_only_parser lower_latin_cyrillic
        (answering 200 (py "Hello")) example_request offline_store).2
     = {| available := false; collections := ∅;
          calls := [CreateDocument "sitecontent" hello_record] |}.
Proof. repeat split; by vm_compute. Qed.

(** ** Trimming *)

Lemma lstrip_clean (s : pystr) : starts_clean (lstrip s).
Proof.
  induction s as [|c r IH]; simpl; [done|].
  destruct (isspace c) eqn:Hc; [done|]. simpl. exact Hc.
Qed.

Lemma lstrip_id (s : pystr) : starts_clean s -> lstrip s = s.
Proof. destruct s as [|c r]; simpl; [done|]. by intros ->. Qed.

Lemma lstrip_snoc (l : pystr) (c : N) :
  isspace c = false -> exists x, lstrip (l ++ [c]) = x ++ [c].
Proof.
  intros Hc. induction l as [|a l IH]; simpl.
  - rewrite Hc. by exists [].
  - destruct (isspace a); [exact IH|]. by exists (a :: l).
Qed.

Lemma rstrip_starts_clean (s : pystr) : starts_clean s -> starts_clean (rstrip s).
Proof.
  destruct s as [|c r]; [done|]. simpl. intros Hc. unfold rstrip. simpl.
  destruct (lstrip_snoc (rev r) c Hc) as [x ->].
  rewrite rev_app_distr. simpl. exact Hc.
Qed.

Lemma rstrip_ends_clean (s : pystr) : ends_clean (rstrip s).
Proof.
  unfold ends_clean, rstrip. rewrite rev_involutive. apply lstrip_clean.
Qed.

Lemma strip_clean (s : pystr) : starts_clean (strip s) /\ ends_clean (strip s).
Proof.
  unfold strip. split; [|apply rstrip_ends_clean].
  apply rstrip_starts_clean, lstrip_clean.
Qed.

Lemma clean_strip (s : pystr) : starts_clean s -> ends_clean s -> strip s = s.
Proof.
  intros Hs He. unfold strip. rewrite (lstrip_id s Hs).
  unfold rstrip. rewrite (lstrip_id (rev s) He). apply rev_involutive.
Qed.

(** Trimming twice is trimming once. *)
Lemma strip_idem (s : pystr) : strip (strip s) = strip s.
Proof. destruct (strip_clean s). by apply clean_strip. Qed.

Lemma join_truthy (sep : pystr) (frags : list pystr) :
  frags <> [] -> Forall (fun f => truthy f = true) frags ->
  truthy (join sep frags) = true.
Proof.
  destruct frags as [|f rest]; [done|]. intros _ Hall.
  apply Forall_cons in Hall as [Hf _].
  destruct f as [|c f]; [done|]. by destruct rest.
Qed.

Lemma join_starts_clean (sep : pystr) (frags : list pystr) :
  Forall (fun f => truthy f = true /\ starts_clean f) frags ->
  starts_clean (join sep frags).
Proof.
  destruct frags as [|f rest]; [done|].
  intros [[Hf Hc] _]%Forall_cons.
  destruct f as [|c f]; [done|]. by destruct rest.
Qed.

Lemma join_ends_clean (sep : pystr) (frags : list pystr) :
  Forall (fun f => truthy f = true /\ ends_clean f) frags ->
  ends_clean (join sep frags).
Proof.
  induction frags as [|f rest IH]; [done|].
  intros [[Hf Hc] Hrest]%Forall_cons.
  destruct rest as [|g rest]; [exact Hc|].
  change (join sep (f :: g :: rest)) with (f ++ sep ++ join sep (g :: rest)).
  unfold ends_clean. rewrite !rev_app_distr.
  assert (Hj : truthy (join sep (g :: rest)) = true).
  { apply join_truthy; [done|]. eapply Forall_impl; [exact Hrest|].
    by intros ? [? _]. }
  specialize (IH Hrest). unfold ends_clean in IH.
  destruct (rev (join sep (g :: rest))) as [|c x] eqn:Hrev; [|exact IH].
  apply (f_equal (@rev N)) in Hrev. rewrite rev_involutive in Hrev.
  by rewrite Hrev in Hj.
Qed.

(** The fragments [get_text] joins are trimmed and not empty. *)
Lemma all_strings_trimmed (t : node) :
  Forall (fun f => truthy f = true /\ strip f = f) (all_strings t).
Proof.
  unfold all_strings. induction (walk_contents [t] (contents_of t)) as [|e l IH];
    simpl; [by apply List.Forall_nil|].
  apply Forall_app. split; [|exact IH].
  unfold stripped_string. destruct (self e) as [| c v]; [by apply List.Forall_nil|].
  destruct (interesting_string_types (name_of t) c); [|by apply List.Forall_nil].
  destruct (truthy (strip v)) eqn:Hv; [|by apply List.Forall_nil].
  apply List.Forall_cons; [|by apply List.Forall_nil].
  split; [done | apply strip_idem].
Qed.

Lemma trimmed_clean (f : pystr) : strip f = f -> starts_clean f /\ ends_clean f.
Proof. intros <-. apply strip_clean. Qed.

(** A text read with [strip=True] neither starts nor ends with
    whitespace, whatever the separator. *)
Lemma get_text_trimmed (sep : pystr) (t : node) :
  strip (get_text sep t) = get_text sep t.
Proof.
  unfold get_text. pose proof (all_strings_trimmed t) as Hall.
  apply clean_strip.
  - apply join_starts_clean. eapply Forall_impl; [exact Hall|].
    intros f [Hf Hs]. split; [done|]. by apply trimmed_clean.
  - apply join_ends_clean. eapply Forall_impl; [exact Hall|].
    intros f [Hf Hs]. split; [done|]. by apply trimmed_clean.
Qed.

(** ** Where the strings of a text come from *)

Lemma elem_of_strings_of (l : list element) (c : string_class) (v : pystr) :
  (c, v) ∈ strings_of l <-> exists e, e ∈ l /\ self e = Text c v.
Proof.
  unfold strings_of. induction l as [|e l IH]; simpl.
  - split; [by intros ?%elem_of_nil | by intros (? & ?%elem_of_nil & _)].
  - rewrite elem_of_app, IH. split.
    + intros [He | (x & Hx & Hs)].
      * exists e. split; [by left|].
        destruct (self e) as [|c' v']; [by apply elem_of_nil in He|].
        apply list_elem_of_singleton in He. by injection He as -> ->.
      * exists x. split; [by right | done].
    + intros (x & [-> | Hx]%elem_of_cons & Hs).
      * left. rewrite Hs. by apply list_elem_of_singleton.
      * right. by exists x.
Qed.

(** The strings below a node do not depend on where the node hangs. *)
Lemma strings_of_walk_anywhere (n : node) :
  forall ps ps' sibs sibs',
    strings_of (walk ps n sibs) = strings_of (walk ps' n sibs').
Proof.
  induction n as [nm attrs cs IH | c v] using node_ind;
    intros ps ps' sibs sibs'; [|done].
  rewrite !walk_tag.
  change (strings_of (?e :: ?l)) with (strings_of [e] ++ strings_of l).
  f_equal.
  generalize (Tag nm attrs cs :: ps) as qs, (Tag nm attrs cs :: ps') as qs'.
  intros qs qs'.
  induction IH as [|c r Hc _ IHr]; [done|].
  cbn [walk_contents]. rewrite !strings_of_app. f_equal; [apply Hc | apply IHr].
Qed.

Lemma strings_of_contents_anywhere (l : list node) (ps ps' : list node) :
  strings_of (walk_contents ps l) = strings_of (walk_contents ps' l).
Proof.
  induction l as [|c r IH]; [done|].
  cbn [walk_contents]. rewrite !strings_of_app. f_equal; [|exact IH].
  apply strings_of_walk_anywhere.
Qed.

(** What lies below an element of a walk is in the walk. *)
Lemma walk_closed (n : node) :
  forall ps sibs e x,
    e ∈ walk ps n sibs -> x ∈ descendants e -> x ∈ walk ps n sibs.
Proof.
  induction n as [nm attrs cs IH | c v] using node_ind; intros ps sibs e x.
  - rewrite walk_tag. intros [-> | He]%elem_of_cons Hx.
    { right. exact Hx. }
    right. revert He. generalize (Tag nm attrs cs :: ps) as qs. intros qs.
    induction IH as [|c r Hc _ IHr]; simpl.
    + by intros ?%elem_of_nil.
    + intros [He | He]%elem_of_app; apply elem_of_app.
      * left. by eapply Hc.
      * right. by apply IHr.
  - simpl. intros ->%list_elem_of_singleton Hx. by apply elem_of_nil in Hx.
Qed.

Lemma descendants_closed (root e x : element) :
  e ∈ descendants root -> x ∈ descendants e -> x ∈ descendants root.
Proof.
  unfold descendants at 1 3.
  generalize (self root :: parents root) as ps. intros ps.
  induction (contents_of (self root)) as [|c r IH]; simpl.
  - by intros ?%elem_of_nil.
  - intros [He | He]%elem_of_app Hx; apply elem_of_app.
    + left. by eapply walk_closed.
    + right. by apply IH.
Qed.

Lemma find_elem (name : pystr) (root b : element) :
  find name root = Some b ->
  b ∈ descendants root /\ named [name] (self b) = true.
Proof.
  intros (pre & post & Hd & _ & Hn)%head_filter_first. split; [|done].
  unfold find_all in *. rewrite Hd. apply elem_of_app. right. by left.
Qed.

(** Every fragment of a text is the trimmed value of a string below the
    tag, of a class the tag keeps. *)
Lemma all_strings_origin (t : node) (f : pystr) :
  f ∈ all_strings t ->
  exists c v,
    (c, v) ∈ strings_of (walk_contents [t] (contents_of t))
    /\ interesting_string_types (name_of t) c = true
    /\ f = strip v.
Proof.
  unfold all_strings.
  induction (walk_contents [t] (contents_of t)) as [|e l IH]; simpl.
  - by intros ?%elem_of_nil.
  - intros [Hf | Hf]%elem_of_app.
    + unfold stripped_string in Hf.
      destruct (self e) as [|c v] eqn:He; [by apply elem_of_nil in Hf|].
      destruct (interesting_string_types (name_of t) c) eqn:Hc;
        [|by apply elem_of_nil in Hf].
      destruct (truthy (strip v)); [|by apply elem_of_nil in Hf].
      apply list_elem_of_singleton in Hf. exists c, v.
      split; [by left | done].
    + destruct (IH Hf) as (c & v & Hin & Hc & ->). exists c, v.
      split; [|done]. apply elem_of_app. by right.
Qed.

Lemma visible_string (top : list node) (c : string_class) (v : pystr) :
  (c, v) ∈ strings_of (descendants (cleaned top)) ->
  exists e,
    e ∈ descendants (soup_of top) /\ hidden e = false /\ self e = Text c v.
Proof.
  rewrite cleaned_strings. intros (e & He & Hs)%elem_of_strings_of.
  apply list_elem_of_In, filter_In in He as [He Hh].
  exists e. split; [by apply list_elem_of_In|]. split; [|done].
  by destruct (hidden e).
Qed.

Section ExtractorExtras.

Variable BeautifulSoup : pystr -> result (list node).
Variable lower : pystr -> pystr.


End ExtractorExtras.

(** ** Sections: what their entries are *)

Lemma startswith_app (f x : pystr) : startswith f (f ++ x) = true.
Proof.
  induction f as [|c f IH]; simpl; [by destruct x|].
  by rewrite N.eqb_refl, IH.
Qed.

Lemma join_starts_with_first (sep f : pystr) (rest : list pystr) :
  startswith f (join sep (f :: rest)) = true.
Proof.
  destruct rest as [|g rest].
  - simpl. rewrite <- (app_nil_r f) at 2. apply startswith_app.
  - change (join sep (f :: g :: rest)) with (f ++ sep ++ join sep (g :: rest)).
    apply startswith_app.
Qed.

Lemma Forall_list_map {A B : Type} (P : B -> Prop) (f : A -> B) (l : list A) :
  (forall x, x ∈ l -> P (f x)) -> Forall P (List.map f l).
Proof.
  intros H. apply Forall_forall. intros y Hy.
  apply list_elem_of_In, in_map_iff in Hy as (x & <- & Hx).
  apply H. by apply list_elem_of_In.
Qed.

Lemma Forall_list_filter {A : Type} (P : A -> Prop) (p : A -> bool) (l : list A) :
  Forall P l -> Forall P (List.filter p l).
Proof.
  rewrite !Forall_forall. intros H x Hx. apply H.
  apply list_elem_of_In, filter_In in Hx as [Hx _]. by apply list_elem_of_In.
Qed.

Lemma filter_length_le {A : Type} (p : A -> bool) (l : list A) :
  (length (List.filter p l) <= length l)%nat.
Proof.
  induction l as [|x l IH]; simpl; [lia|]. destruct (p x); simpl; lia.
Qed.

Lemma with_siblings_length (k : nat) (e : element) :
  (1 <= length (with_siblings k e) <= S k)%nat.
Proof.
  unfold with_siblings. cbn [length].
  pose proof (filter_length_le truthy (List.map tag_text (take k (sibling_tags e)))).
  rewrite length_map in H.
  pose proof (firstn_le_length k (sibling_tags e)). lia.
Qed.

Lemma with_siblings_trimmed (k : nat) (e : element) :
  Forall (fun x => strip x = x) (with_siblings k e).
Proof.
  unfold with_siblings. apply List.Forall_cons; [apply get_text_trimmed|].
  apply Forall_list_filter, Forall_list_map. intros x _. apply get_text_trimmed.
Qed.

Lemma parent_block_trimmed (e : element) : strip (parent_block e) = parent_block e.
Proof.
  unfold parent_block. destruct (parent e); [apply get_text_trimmed | done].
Qed.

(** Every block of a heading section starts with the title of a heading
    that has one of the keywords. *)
Lemma keyword_blocks_origin (lower : pystr -> pystr)
    (names keywords : list pystr) (soup : element) :
  Forall
    (fun b =>
       exists h,
         h ∈ find_all names soup
         /\ named names (self h) = true
         /\ any_in keywords (lower (tag_text h)) = true
         /\ b = join [10] (with_siblings 6 h)
         /\ startswith (tag_text h) b = true)
    (keyword_blocks lower names keywords soup).
Proof.
  unfold keyword_blocks. apply Forall_list_map. intros h Hh. exists h.
  apply list_elem_of_In, filter_In in Hh as [Hh Hk].
  split; [by apply list_elem_of_In|]. split.
  { unfold find_all in Hh. by apply filter_In in Hh as [_ Hh]. }
  split; [done|]. split; [done|]. apply join_starts_with_first.
Qed.

Lemma detected_some (l v : list pystr) : detected l = Some v -> v = l.
Proof. destruct l; [done|]. by intros [= <-]. Qed.

Section SectionExtras.

Variable BeautifulSoup : pystr -> result (list node).
Variable lower : pystr -> pystr.

(** X2. In the result of every input the parser accepts, each navigation label, each hero
    entry and each testimonial block is trimmed: it neither starts nor
    ends with whitespace. *)
Theorem emitted_texts_are_trimmed (html : pystr) :
  match BeautifulSoup html with
  | Ok top =>
      exists r,
        extract_text_and_sections BeautifulSoup lower html = Ok r
        /\ Forall (fun item => strip (label item) = label item) (navigation r)
        /\ from_option (Forall (fun x => strip x = x)) True
             (sections r !! "hero"%string)
        /\ from_option (Forall (fun x => strip x = x)) True
             (sections r !! "testimonials"%string)
  | Raise e => extract_text_and_sections BeautifulSoup lower html = Raise e
  end.
Proof.
  destruct (BeautifulSoup html) as [top | e0] eqn:Hparse;
    [|by apply extract_rejected].
  rewrite (extract_parsed _ _ _ _ Hparse).
  eexists. split; [done|]. cbn [sections navigation].
  rewrite sections_hero, sections_testimonials. split; [|split].
  - unfold linked_anchors_in_nav. apply Forall_list_map.
    intros e _. apply get_text_trimmed.
  - destruct (find (py "h1") _) as [h|]; simpl; [|done].
    apply with_siblings_trimmed.
  - destruct (detected _) as [v|] eqn:Hd; simpl; [|done].
    apply detected_some in Hd as ->. unfold testimonial_blocks.
    apply Forall_forall. intros b Hb.
    assert (Hb' : b ∈ unique_first
                        (List.filter truthy
                           (List.map parent_block
                              (List.filter (mentions_testimonial lower)
                                 (find_all_text (cleaned top)))))).
    { eapply elem_of_sublist; [exact Hb | apply sublist_take]. }
    apply (proj1 (unique_first_elem _ _)) in Hb'.
    apply list_elem_of_In, filter_In in Hb' as [Hb' _].
    apply in_map_iff in Hb' as (e & <- & _). apply parent_block_trimmed.
Qed.

(** X3. When the hero section is present it has between one and four
    entries, and every entry after the first is not empty. *)
Theorem hero_has_one_to_four_entries (html : pystr) :
  match BeautifulSoup html with
  | Ok top =>
      exists r,
        extract_text_and_sections BeautifulSoup lower html = Ok r
        /\ from_option
             (fun h => (1 <= length h <= 4)%nat
                       /\ Forall (fun x => truthy x = true) (tail h))
             True (sections r !! "hero"%string)
  | Raise e => extract_text_and_sections BeautifulSoup lower html = Raise e
  end.
Proof.
  destruct (BeautifulSoup html) as [top | e0] eqn:Hparse;
    [|by apply extract_rejected].
  rewrite (extract_parsed _ _ _ _ Hparse).
  eexists. split; [done|]. cbn [sections]. rewrite sections_hero.
  destruct (find (py "h1") _) as [h|]; simpl; [|done].
  split; [apply (with_siblings_length 3)|].
  apply Forall_forall. intros x Hx.
  by apply list_elem_of_In, filter_In in Hx as [_ Hx].
Qed.


(** X5. When the contact section is present, every entry of it is the
    non-empty trimmed text of a [form], or a block that starts with the
    title of an [h2], [h3] or [h4] whose lower-cased title has a contact
    keyword. *)
Theorem contact_entries_are_forms_or_heading_blocks (html : pystr) :
  match BeautifulSoup html with
  | Ok top =>
      exists r,
        extract_text_and_sections BeautifulSoup lower html = Ok r
        /\ from_option
             (Forall
                (fun b =>
                   (exists f,
                       f ∈ find_all [py "form"] (cleaned top)
                       /\ b = tag_text f /\ truthy b = true /\ strip b = b)
                   \/ (exists h,
                          h ∈ find_all [py "h2"; py "h3"; py "h4"]
                                (cleaned top)
                          /\ any_in contact_keywords (lower (tag_text h)) = true
                          /\ b = join [10] (with_siblings 6 h)
                          /\ startswith (tag_text h) b = true)))
             True (sections r !! "contact"%string)
  | Raise e => extract_text_and_sections BeautifulSoup lower html = Raise e
  end.
Proof.
  destruct (BeautifulSoup html) as [top | e0] eqn:Hparse;
    [|by apply extract_rejected].
  rewrite (extract_parsed _ _ _ _ Hparse).
  eexists. split; [done|]. cbn [sections]. rewrite sections_contact.
  destruct (detected _) as [v|] eqn:Hd; simpl; [|done].
  apply detected_some in Hd as ->. apply Forall_app. split.
  - unfold form_blocks. apply Forall_forall. intros b Hb.
    apply list_elem_of_In, filter_In in Hb as [Hb Ht].
    apply in_map_iff in Hb as (f & <- & Hf). left. exists f.
    split; [by apply list_elem_of_In|]. split; [done|]. split; [done|].
    apply get_text_trimmed.
  - eapply Forall_impl; [apply keyword_blocks_origin|].
    intros b (h & H1 & H2 & H3 & H4 & H5). right. by exists h.
Qed.

(** X6. A heading [h2] or [h3] whose lower-cased title has both a
    service keyword and a contact keyword gives one and the same block
    to the services section and to the contact section. *)
Theorem heading_with_both_keywords_is_in_both_sections (html : pystr)
    (top : list node) (h : element) :
  BeautifulSoup html = Ok top ->
  h ∈ find_all [py "h2"; py "h3"] (cleaned top) ->
  any_in service_keywords (lower (tag_text h)) = true ->
  any_in contact_keywords (lower (tag_text h)) = true ->
  exists r,
    extract_text_and_sections BeautifulSoup lower html = Ok r
    /\ from_option (fun l => join [10] (with_siblings 6 h) ∈ l) False
         (sections r !! "services"%string)
    /\ from_option (fun l => join [10] (with_siblings 6 h) ∈ l) False
         (sections r !! "contact"%string).
Proof.
  intros Hparse Hh Hs Hc.
  rewrite (extract_parsed _ _ _ _ Hparse).
  eexists. split; [done|]. cbn [sections].
  rewrite sections_services, sections_contact.
  set (soup := cleaned top) in *.
  assert (H1 : join [10] (with_siblings 6 h)
               ∈ keyword_blocks lower [py "h2"; py "h3"] service_keywords soup).
  { unfold keyword_blocks. apply list_elem_of_In, in_map_iff. exists h.
    split; [done|]. apply filter_In. split; [by apply list_elem_of_In | done]. }
  assert (H2 : join [10] (with_siblings 6 h)
               ∈ keyword_blocks lower [py "h2"; py "h3"; py "h4"]
                   contact_keywords soup).
  { unfold keyword_blocks. apply list_elem_of_In, in_map_iff. exists h.
    split; [done|]. apply filter_In. split; [|done].
    unfold find_all in *. apply list_elem_of_In, filter_In in Hh as [Hd Hn].
    apply filter_In. split; [done|].
    destruct (self h) as [nm attrs cs|]; [|done]. simpl in *.
    apply bool_decide_eq_true_1 in Hn. apply bool_decide_eq_true_2.
    apply elem_of_cons in Hn as [-> | Hn]; [by left|].
    apply list_elem_of_singleton in Hn as ->. right. by left. }
  split.
  - destruct (keyword_blocks lower [py "h2"; py "h3"] service_keywords soup);
      [by apply elem_of_nil in H1 | done].
  - assert (H3 : join [10] (with_siblings 6 h)
                 ∈ form_blocks soup
                   ++ keyword_blocks lower [py "h2"; py "h3"; py "h4"]
                        contact_keywords soup).
    { apply elem_of_app. by right. }
    destruct (form_blocks soup ++ _); [by apply elem_of_nil in H3 | done].
Qed.

End SectionExtras.

Lemma heading_with_both_keywords_is_in_both_sections_witness :
  (fun _ : pystr => Ok service_contact_page) (py "page")
  = Ok service_contact_page
  /\ service_contact_heading
     ∈ find_all [py "h2"; py "h3"] (cleaned service_contact_page)
  /\ any_in service_keywords
       (lower_latin_cyrillic (tag_text service_contact_heading)) = true
  /\ any_in contact_keywords
       (lower_latin_cyrillic (tag_text service_contact_heading)) = true
  /\ exists r,
      extract_text_and_sections (fun _ : pystr => Ok service_contact_page)
        lower_latin_cyrillic (py "page") = Ok r
      /\ from_option
           (fun l => join [10] (with_siblings 6 service_contact_heading) ∈ l)
           False (sections r !! "services"%string)
      /\ from_option
           (fun l => join [10] (with_siblings 6 service_contact_heading) ∈ l)
           False (sections r !! "contact"%string).
Proof.
  assert (H1 : service_contact_heading
               ∈ find_all [py "h2"; py "h3"] (cleaned service_contact_page))
    by (vm_compute; left).
  assert (H2 : any_in service_keywords
                 (lower_latin_cyrillic (tag_text service_contact_heading)) = true)
    by (vm_compute; reflexivity).
  assert (H3 : any_in contact_keywords
                 (lower_latin_cyrillic (tag_text service_contact_heading)) = true)
    by (vm_compute; reflexivity).
  split; [reflexivity|]. split; [exact H1|]. split; [exact H2|].
  split; [exact H3|].
  exact (heading_with_both_keywords_is_in_both_sections
           (fun _ : pystr => Ok service_contact_page) lower_latin_cyrillic
           (py "page") service_contact_page service_contact_heading
           eq_refl H1 H2 H3).
Defined.

(** ** A document without script, style or noscript *)

Lemma extract_all_id (n : node) :
  forall ps sibs,
    Forall (fun e => named removed_names (self e) = false) (walk ps n sibs) ->
    extract_all removed_names n = n.
Proof.
  induction n as [nm attrs cs IH | c v] using node_ind; intros ps sibs; [|done].
  rewrite walk_tag, extract_all_tag. intros [_ Hcs]%Forall_cons. f_equal.
  revert Hcs. generalize (Tag nm attrs cs :: ps) as qs. intros qs.
  induction IH as [|c r Hc _ IHr]; [done|].
  cbn [walk_contents extract_contents]. intros [Hw Hr]%Forall_app.
  assert (Hn : named removed_names c = false).
  { destruct c; [|done]. rewrite walk_tag in Hw.
    by apply Forall_cons in Hw as [Hw _]. }
  rewrite Hn. f_equal; [by eapply Hc | by apply IHr].
Qed.

Lemma extract_contents_id (l : list node) (ps : list node) :
  Forall (fun e => named removed_names (self e) = false) (walk_contents ps l) ->
  extract_contents removed_names l = l.
Proof.
  induction l as [|c r IH]; [done|].
  cbn [walk_contents extract_contents]. intros [Hw Hr]%Forall_app.
  assert (Hn : named removed_names c = false).
  { destruct c; [|done]. rewrite walk_tag in Hw.
    by apply Forall_cons in Hw as [Hw _]. }
  rewrite Hn. f_equal; [by eapply extract_all_id | by apply IH].
Qed.

(** X7. When the parsed document has no [script], [style] or [noscript]
    element, the removal loop changes nothing: every field is read from
    the document as parsed. *)
Theorem removal_leaves_other_documents_alone
    (BeautifulSoup : pystr -> result (list node)) (html : pystr)
    (top : list node) :
  BeautifulSoup html = Ok top ->
  Forall (fun e => named removed_names (self e) = false)
         (descendants (soup_of top)) ->
  extract_contents removed_names top = top
  /\ cleaned top = soup_of top.
Proof.
  intros _ Hall. apply extract_contents_id in Hall.
  cbn [soup_of self contents_of] in Hall. unfold cleaned. by rewrite Hall.
Qed.

Lemma removal_leaves_other_documents_alone_witness :
  (fun _ : pystr => Ok hero_page) (py "page") = Ok hero_page
  /\ Forall (fun e => named removed_names (self e) = false)
       (descendants (soup_of hero_page))
  /\ extract_contents removed_names hero_page = hero_page
  /\ cleaned hero_page = soup_of hero_page.
Proof.
  assert (H : Forall (fun e => named removed_names (self e) = false)
                (descendants (soup_of hero_page)))
    by (vm_compute; repeat (apply List.Forall_cons; [reflexivity|]);
        apply List.Forall_nil).
  split; [reflexivity|]. split; [exact H|].
  exact (removal_leaves_other_documents_alone (fun _ : pystr => Ok hero_page)
           (py "page") hero_page eq_refl H).
Defined.

(** ** The API operations: further properties *)

Ltac lookups :=
  repeat (rewrite lookup_delete_eq || rewrite lookup_insert_eq
          || rewrite lookup_empty
          || (rewrite lookup_delete_ne by done)
          || (rewrite lookup_insert_ne by done)).

Section ApiExtras.

Variable BeautifulSoup : pystr -> result (list node).
Variable lower : pystr -> pystr.
Variable requests_get : pystr -> result Response.

(** X8. A successful import was fetched with status 200, and the record
    it returns holds the request's URL and language, the fetched body
    unchanged as [raw_html], and the three fields of the extraction of
    that body. *)
Theorem import_returns_the_fetched_page (req : ImportRequest.t)
    (st st' : Store) (doc : SiteContent.t) :
  import_content BeautifulSoup lower requests_get req st = (Ok doc, st') ->
  exists resp extracted,
    requests_get (ImportRequest.url req) = Ok resp
    /\ status_code resp = 200%Z
    /\ extract_text_and_sections BeautifulSoup lower (text resp) = Ok extracted
    /\ doc = {| SiteContent.source_url := ImportRequest.url req;
                SiteContent.language := ImportRequest.language req;
                SiteContent.raw_html := Some (text resp);
                SiteContent.raw_text := Some (raw_text extracted);
                SiteContent.sections := sections extracted;
                SiteContent.navigation := navigation extracted |}.
Proof.
  unfold import_content.
  destruct (requests_get (ImportRequest.url req)) as [resp | e]; [|done].
  destruct (status_code resp =? 200)%Z eqn:Hcode; [|done]. cbn [negb].
  apply Z.eqb_eq in Hcode.
  destruct (BeautifulSoup (text resp)) as [top | e] eqn:Hparse;
    [|by rewrite (no_record BeautifulSoup lower req resp e Hparse)].
  pose proof (extract_parsed BeautifulSoup lower _ _ Hparse) as Hex.
  rewrite Hex. intros H. eexists resp, _.
  split; [done|]. split; [done|]. split; [exact Hex|].
  destruct req as [u l]. cbn [ImportRequest.url ImportRequest.language] in *.
  unfold create_document in H.
  destruct l as [l|]; simpl in H; destruct (available st); try done;
    by injection H as <- _.
Qed.

(** X9. An import either returns a record and adds exactly that record
    at the end of the sitecontent collection, leaving every other
    collection as it was, or fails and leaves every collection as it
    was; what it fails with is an [HTTPException], except when the
    parser rejected the body of a 200 answer: then it is the parser's
    exception. *)
Theorem import_stores_one_record_or_nothing (req : ImportRequest.t)
    (st : Store) :
  match (import_content BeautifulSoup lower requests_get req st).1 with
  | Ok doc =>
      records "sitecontent"
        (import_content BeautifulSoup lower requests_get req st).2
      = records "sitecontent" st ++ [SiteContent.model_dump doc]
      /\ delete "sitecontent"%string
           (collections
              (import_content BeautifulSoup lower requests_get req st).2)
         = delete "sitecontent"%string (collections st)
  | Raise e =>
      collections (import_content BeautifulSoup lower requests_get req st).2
      = collections st
      /\ ((exists code detail, e = HTTPException code detail)
          \/ (exists resp,
                 requests_get (ImportRequest.url req) = Ok resp
                 /\ status_code resp = 200%Z
                 /\ BeautifulSoup (text resp) = Raise e
                 /\ calls
                      (import_content BeautifulSoup lower requests_get req st).2
                    = calls st))
  end.
Proof.
  unfold import_content.
  destruct (requests_get (ImportRequest.url req)) as [resp | e];
    [|simpl; eauto].
  destruct (status_code resp =? 200)%Z eqn:Hcode; cbn [negb]; [|simpl; eauto].
  apply Z.eqb_eq in Hcode.
  destruct (BeautifulSoup (text resp)) as [top | e] eqn:Hparse.
  - destruct (built_record BeautifulSoup lower req resp top Hparse) as [doc ->].
    unfold create_document. destruct (available st); simpl; [|eauto].
    split.
    + unfold records at 1. cbn [collections]. by rewrite lookup_insert_eq.
    + by rewrite delete_insert_eq.
  - rewrite (no_record BeautifulSoup lower req resp e Hparse). simpl.
    split; [done|]. right. by exists resp.
Qed.

(** X10. An import calls the store at most once, with [create_document]
    on the sitecontent collection, and only when the upstream answered
    200 and the parser accepted the body; when the fetch raised, the
    status was another one, or the parser rejected the body, the store
    is not called. *)
Theorem import_calls_the_store_at_most_once (req : ImportRequest.t)
    (st : Store) :
  exists made,
    calls (import_content BeautifulSoup lower requests_get req st).2
    = calls st ++ made
    /\ (length made <= 1)%nat
    /\ match requests_get (ImportRequest.url req) with
       | Raise _ => made = []
       | Ok resp =>
           if bool_decide (status_code resp = 200%Z)
           then
             match BeautifulSoup (text resp) with
             | Ok _ => exists doc, made = [CreateDocument "sitecontent" doc]
             | Raise _ => made = []
             end
           else made = []
       end.
Proof.
  unfold import_content.
  destruct (requests_get (ImportRequest.url req)) as [resp | e].
  - case_bool_decide as Hc.
    + rewrite Hc. cbn [Z.eqb Pos.eqb negb].
      destruct (BeautifulSoup (text resp)) as [top | e] eqn:Hparse.
      * destruct (built_record BeautifulSoup lower req resp top Hparse)
          as [doc ->].
        unfold create_document.
        destruct (available st); simpl; eexists;
          (split; [reflexivity|]); (split; [simpl; lia | eauto]).
      * rewrite (no_record BeautifulSoup lower req resp e Hparse). simpl.
        exists []. rewrite app_nil_r. repeat split. simpl. lia.
    + apply Z.eqb_neq in Hc. rewrite Hc. simpl. exists [].
      rewrite app_nil_r. repeat split. simpl. lia.
  - simpl. exists []. rewrite app_nil_r. repeat split. simpl. lia.
Qed.

End ApiExtras.

Lemma import_returns_the_fetched_page_witness :
  import_content text_only_parser lower_latin_cyrillic
    (answering 200 (py "Hello")) example_request empty_store
  = (Ok hello_record, hello_store)
  /\ exists resp extracted,
      answering 200 (py "Hello") (ImportRequest.url example_request) = Ok resp
      /\ status_code resp = 200%Z
      /\ extract_text_and_sections text_only_parser lower_latin_cyrillic
           (text resp) = Ok extracted
      /\ hello_record
         = {| SiteContent.source_url := ImportRequest.url example_request;
              SiteContent.language := ImportRequest.language example_request;
              SiteContent.raw_html := Some (text resp);
              SiteContent.raw_text := Some (raw_text extracted);
              SiteContent.sections := sections extracted;
              SiteContent.navigation := navigation extracted |}.
Proof.
  assert (H : import_content text_only_parser lower_latin_cyrillic
                (answering 200 (py "Hello")) example_request empty_store
              = (Ok hello_record, hello_store)) by (vm_compute; reflexivity).
  split; [exact H|].
  exact (import_returns_the_fetched_page text_only_parser lower_latin_cyrillic
           (answering 200 (py "Hello")) example_request empty_store hello_store
           hello_record H).
Defined.

(** X11. Reading the latest content changes no collection, is logged as
    one [get_documents] call, and either returns records or fails with
    an [HTTPException] of status 500 whose message starts with
    "Database error: ". *)
Theorem content_reads_without_writing (limit : Z) (st : Store) :
  collections (get_latest_content limit st).2 = collections st
  /\ available (get_latest_content limit st).2 = available st
  /\ calls (get_latest_content limit st).2
     = calls st ++ [GetDocuments "sitecontent" limit]
  /\ match (get_latest_content limit st).1 with
     | Ok _ => http_status (get_latest_content limit st).1 = 200%Z
     | Raise e =>
         http_status (get_latest_content limit st).1 = 500%Z
         /\ exists msg, e = HTTPException 500 (py "Database error: " ++ msg)
     end.
Proof.
  unfold get_latest_content, get_documents.
  destruct (available st) eqn:Hav.
  - destruct (to_models _) as [out | e];
      cbn [fst snd collections available calls http_status];
      repeat split; eauto.
  - cbn [fst snd collections available calls http_status].
    repeat split; eauto.
Qed.

(** X12. A stored document that lacks a key is read back with that
    field's default: the empty string for [source_url], null for
    [language], [raw_html] and [raw_text], the empty mapping for
    [sections], the empty sequence for [navigation]; the other fields
    are read back as stored. *)
Theorem missing_keys_are_read_as_defaults (m : SiteContent.t) :
  to_models [delete "source_url"%string (SiteContent.model_dump m)]
  = Ok [{| SiteContent.source_url := [];
           SiteContent.language := SiteContent.language m;
           SiteContent.raw_html := SiteContent.raw_html m;
           SiteContent.raw_text := SiteContent.raw_text m;
           SiteContent.sections := SiteContent.sections m;
           SiteContent.navigation := SiteContent.navigation m |}]
  /\ to_models [delete "language"%string (SiteContent.model_dump m)]
     = Ok [{| SiteContent.source_url := SiteContent.source_url m;
              SiteContent.language := None;
              SiteContent.raw_html := SiteContent.raw_html m;
              SiteContent.raw_text := SiteContent.raw_text m;
              SiteContent.sections := SiteContent.sections m;
              SiteContent.navigation := SiteContent.navigation m |}]
  /\ to_models [delete "raw_html"%string (SiteContent.model_dump m)]
     = Ok [{| SiteContent.source_url := SiteContent.source_url m;
              SiteContent.language := SiteContent.language m;
              SiteContent.raw_html := None;
              SiteContent.raw_text := SiteContent.raw_text m;
              SiteContent.sections := SiteContent.sections m;
              SiteContent.navigation := SiteContent.navigation m |}]
  /\ to_models [delete "raw_text"%string (SiteContent.model_dump m)]
     = Ok [{| SiteContent.source_url := SiteContent.source_url m;
              SiteContent.language := SiteContent.language m;
              SiteContent.raw_html := SiteContent.raw_html m;
              SiteContent.raw_text := None;
              SiteContent.sections := SiteContent.sections m;
              SiteContent.navigation := SiteContent.navigation m |}]
  /\ to_models [delete "sections"%string (SiteContent.model_dump m)]
     = Ok [{| SiteContent.source_url := SiteContent.source_url m;
              SiteContent.language := SiteContent.language m;
              SiteContent.raw_html := SiteContent.raw_html m;
              SiteContent.raw_text := SiteContent.raw_text m;
              SiteContent.sections := ∅;
              SiteContent.navigation := SiteContent.navigation m |}]
  /\ to_models [delete "navigation"%string (SiteContent.model_dump m)]
     = Ok [{| SiteContent.source_url := SiteContent.source_url m;
              SiteContent.language := SiteContent.language m;
              SiteContent.raw_html := SiteContent.raw_html m;
              SiteContent.raw_text := SiteContent.raw_text m;
              SiteContent.sections := SiteContent.sections m;
              SiteContent.navigation := [] |}]
  /\ to_models [∅]
     = Ok [{| SiteContent.source_url := [];
              SiteContent.language := None;
              SiteContent.raw_html := None;
              SiteContent.raw_text := None;
              SiteContent.sections := ∅;
              SiteContent.navigation := [] |}].
Proof.
  destruct m as [u l h x s n].
  cbn [SiteContent.source_url SiteContent.language SiteContent.raw_html
       SiteContent.raw_text SiteContent.sections SiteContent.navigation].
  repeat split; cbn [to_models]; unfold dict_get, SiteContent.model_dump;
    cbn [SiteContent.source_url SiteContent.language SiteContent.raw_html
         SiteContent.raw_text SiteContent.sections SiteContent.navigation];
    lookups; by destruct l, h, x.
Qed.

(** ** The diagnostic endpoint: properties *)

Ltac report_cases db :=
  unfold test_database, probe, hasattr_name;
  destruct db as [[[name | [msg | msg | msg | code msg]] [names | e]] |];
  cbn [name_attribute list_collection_names].

(** X13. Whatever the database, the [database_url] and [database_name]
    of the report say only whether the environment variable is set to a
    non-empty value: what the connection test wrote there is replaced,
    and a variable set to the empty string counts as not set. *)
Theorem report_reads_the_environment (db : option Database)
    (getenv : pystr -> option pystr) :
  test_database db getenv !! "database_url"%string
  = Some (RStr match getenv (py "DATABASE_URL") with
               | Some (_ :: _) => check_mark ++ py " Set"
               | _ => cross_mark ++ py " Not Set"
               end)
  /\ test_database db getenv !! "database_name"%string
     = Some (RStr match getenv (py "DATABASE_NAME") with
                  | Some (_ :: _) => check_mark ++ py " Set"
                  | _ => cross_mark ++ py " Not Set"
                  end).
Proof.
  unfold test_database, env_set. split; lookups.
  - by destruct (getenv (py "DATABASE_URL")) as [[|]|].
  - by destruct (getenv (py "DATABASE_NAME")) as [[|]|].
Qed.

(** X14. The report always has exactly the six keys backend, database,
    database_url, database_name, connection_status and collections, and
    its backend entry always says running. *)
Theorem report_has_its_six_keys (db : option Database)
    (getenv : pystr -> option pystr) :
  dom (test_database db getenv)
  = ({["backend"%string]} ∪ {["database"%string]} ∪ {["database_url"%string]}
     ∪ {["database_name"%string]} ∪ {["connection_status"%string]}
     ∪ {["collections"%string]} : gset string)
  /\ test_database db getenv !! "backend"%string
     = Some (RStr (check_mark ++ py " Running")).
Proof.
  split.
  - report_cases db; unfold initial_report;
      rewrite !dom_insert_L, dom_empty_L; set_solver.
  - report_cases db; unfold initial_report; by lookups.
Qed.

(** X15. The collections entry of the report is a list of at most ten
    names: the first ten the database lists when the database is there,
    its name can be read and the listing works, and the empty list
    otherwise. *)
Theorem report_lists_at_most_ten_collections (db : option Database)
    (getenv : pystr -> option pystr) :
  exists shown,
    test_database db getenv !! "collections"%string = Some (RList shown)
    /\ (length shown <= 10)%nat
    /\ match db with
       | None => shown = []
       | Some d =>
           match hasattr_name d, list_collection_names d with
           | Ok _, Ok names => shown = take 10 names
           | _, _ => shown = []
           end
       end.
Proof.
  report_cases db; unfold initial_report; lookups; eexists;
    (split; [reflexivity|]); (split; [|reflexivity]);
    try apply firstn_le_length; simpl; lia.
Qed.

(** X16. The report says "Connected & Working" exactly when the database
    is there, its name can be read or is missing, and the listing of
    collections works; it says "Connected" as connection status exactly
    when the database is there and its name can be read or is missing. *)
Theorem report_says_working_only_after_listing (db : option Database)
    (getenv : pystr -> option pystr) :
  (test_database db getenv !! "database"%string
   = Some (RStr (check_mark ++ py " Connected & Working"))
   <-> exists d has names,
        db = Some d /\ hasattr_name d = Ok has
        /\ list_collection_names d = Ok names)
  /\ (test_database db getenv !! "connection_status"%string
      = Some (RStr (py "Connected"))
      <-> exists d has, db = Some d /\ hasattr_name d = Ok has).
Proof.
  split.
  - report_cases db; unfold initial_report; lookups;
      (split; [intros [=] | intros (d & has & ns & [= <-] & Hh & Hl)]);
      unfold hasattr_name in *; cbn [name_attribute list_collection_names] in *;
      try discriminate; eauto 10.
  - report_cases db; unfold initial_report; lookups;
      (split; [intros [=] | intros (d & has & [= <-] & Hh)]);
      unfold hasattr_name in *; cbn [name_attribute] in *;
      try discriminate; eauto 10.
Qed.

(** X17. The database entry of the report is a message of at most 75
    characters: an exception's text is cut to its first 50 characters
    before it is put in. *)
Theorem report_message_is_bounded (db : option Database)
    (getenv : pystr -> option pystr) :
  exists message,
    test_database db getenv !! "database"%string = Some (RStr message)
    /\ (length message <= 75)%nat.
Proof.
  report_cases db; unfold initial_report; lookups; eexists;
    (split; [reflexivity|]); rewrite ?length_app;
    try match goal with
        | |- context [take 50 ?m] => pose proof (firstn_le_length 50 m)
        end;
    cbn [length check_mark cross_mark warning_sign py List.map
         list_ascii_of_string] in *; lia.
Qed.

Lemma to_models_all_or_nothing (docs : list (gmap string value)) :
  match to_models docs with
  | Ok out =>
      Forall (fun d => valid_document d = true) docs
      /\ length out = length docs
  | Raise _ => Exists (fun d => valid_document d = false) docs
  end.
Proof.
  induction docs as [|d rest IH]; [by split|].
  cbn [to_models].
  assert (Hv : valid_document d
               = match SiteContent.new
                         (dict_get d "source_url" (VStr []))
                         (dict_get d "language" VNone)
                         (dict_get d "raw_html" VNone)
                         (dict_get d "raw_text" VNone)
                         (dict_get d "sections" (VDict ∅))
                         (dict_get d "navigation" (VList []))
                 with Ok _ => true | Raise _ => false end) by done.
  destruct (SiteContent.new _ _ _ _ _ _) as [m | e]; simpl.
  - destruct (to_models rest) as [out | e']; simpl.
    + destruct IH as [Hall Hlen]. split; [|by rewrite Hlen].
      by apply List.Forall_cons.
    + by apply Exists_cons_tl.
  - by apply Exists_cons_hd.
Qed.

(** X18. The content endpoint returns all or nothing: when the store
    hands over documents, it returns one record for each of them if
    every document can be read as a record, and fails as a whole if one
    of them cannot. *)
Theorem content_is_all_or_nothing (limit : Z) (st st' : Store)
    (docs : list (gmap string value)) :
  get_documents "sitecontent" limit st = (Ok docs, st') ->
  match (get_latest_content limit st).1 with
  | Ok out =>
      Forall (fun d => valid_document d = true) docs
      /\ length out = length docs
  | Raise e =>
      Exists (fun d => valid_document d = false) docs
      /\ http_status (get_latest_content limit st).1 = 500%Z
  end.
Proof.
  intros Hget. unfold get_latest_content. rewrite Hget.
  pose proof (to_models_all_or_nothing docs) as H.
  destruct (to_models docs) as [out | e]; cbn [fst http_status]; [done|].
  by split.
Qed.

Lemma content_is_all_or_nothing_witness :
  get_documents "sitecontent" 1 damaged_store
  = (Ok [<["source_url"%string := VNone]> (∅ : gmap string value)],
     {| available := true;
        collections := collections damaged_store;
        calls := [GetDocuments "sitecontent" 1] |})
  /\ match (get_latest_content 1 damaged_store).1 with
     | Ok out =>
         Forall (fun d => valid_document d = true)
           [<["source_url"%string := VNone]> (∅ : gmap string value)]
         /\ length out
            = length [<["source_url"%string := VNone]> (∅ : gmap string value)]
     | Raise e =>
         Exists (fun d => valid_document d = false)
           [<["source_url"%string := VNone]> (∅ : gmap string value)]
         /\ http_status (get_latest_content 1 damaged_store).1 = 500%Z
     end.
Proof.
  assert (H : get_documents "sitecontent" 1 damaged_store
              = (Ok [<["source_url"%string := VNone]> (∅ : gmap string value)],
                 {| available := true;
                    collections := collections damaged_store;
                    calls := [GetDocuments "sitecontent" 1] |}))
    by (vm_compute; reflexivity).
  split; [exact H|].
  exact (content_is_all_or_nothing 1 damaged_store _ _ H).
Defined.

(** ** Siblings and parents are in the tree *)

Lemma sibling_elements_in_contents (ps sibs : list node) (s : element) :
  s ∈ sibling_elements ps sibs -> s ∈ walk_contents ps sibs.
Proof.
  induction sibs as [|c r IH]; simpl.
  - by intros ?%elem_of_nil.
  - intros [-> | Hs]%elem_of_cons; apply elem_of_app.
    + left. destruct c; [rewrite walk_tag|]; by left.
    + right. by apply IH.
Qed.

Lemma walk_siblings (n : node) :
  forall ps sibs e s,
    e ∈ walk ps n sibs ->
    s ∈ sibling_elements (parents e) (next_siblings e) ->
    s ∈ walk ps n sibs ++ walk_contents ps sibs.
Proof.
  induction n as [nm attrs cs IH | c v] using node_ind; intros ps sibs e s.
  - rewrite walk_tag. intros [-> | He]%elem_of_cons Hs.
    { apply elem_of_app. right. by apply sibling_elements_in_contents. }
    apply elem_of_app. left. right.
    revert He. generalize (Tag nm attrs cs :: ps) as qs. intros qs.
    induction IH as [|c r Hc _ IHr]; simpl.
    + by intros ?%elem_of_nil.
    + intros [He | He]%elem_of_app.
      * by eapply Hc.
      * apply elem_of_app. right. by apply IHr.
  - simpl. intros ->%list_elem_of_singleton Hs.
    right. by apply sibling_elements_in_contents.
Qed.

Lemma descendants_siblings (root e s : element) :
  e ∈ descendants root ->
  s ∈ sibling_elements (parents e) (next_siblings e) ->
  s ∈ descendants root.
Proof.
  unfold descendants.
  generalize (self root :: parents root) as ps. intros ps.
  induction (contents_of (self root)) as [|c r IH]; simpl.
  - by intros ?%elem_of_nil.
  - intros [He | He]%elem_of_app Hs.
    + by eapply walk_siblings.
    + apply elem_of_app. right. by apply IH.
Qed.

Lemma walk_ancestors (n : node) :
  forall ps sibs e p,
    e ∈ walk ps n sibs -> p ∈ parents e ->
    p ∈ ps \/ exists a, a ∈ walk ps n sibs /\ self a = p.
Proof.
  induction n as [nm attrs cs IH | c v] using node_ind; intros ps sibs e p.
  - rewrite walk_tag. intros [-> | He]%elem_of_cons Hp; [by left|].
    assert (Hin : p ∈ Tag nm attrs cs :: ps
                  \/ exists a, a ∈ walk_contents (Tag nm attrs cs :: ps) cs
                               /\ self a = p).
    { revert He. generalize (Tag nm attrs cs :: ps) as qs. intros qs.
      induction IH as [|c r Hc _ IHr]; simpl.
      - by intros ?%elem_of_nil.
      - intros [He | He]%elem_of_app.
        + destruct (Hc _ _ _ _ He Hp) as [Hq | (a & Ha & Hs)]; [by left|].
          right. exists a. split; [|done]. apply elem_of_app. by left.
        + destruct (IHr He) as [Hq | (a & Ha & Hs)]; [by left|].
          right. exists a. split; [|done]. apply elem_of_app. by right. }
    destruct Hin as [[-> | Hq]%elem_of_cons | (a & Ha & Hs)].
    + right. eexists. split; [by left | done].
    + by left.
    + right. exists a. split; [by right | done].
  - simpl. intros ->%list_elem_of_singleton Hp. by left.
Qed.

Lemma descendants_ancestors (root e : element) (p : node) :
  e ∈ descendants root -> p ∈ parents e ->
  p ∈ self root :: parents root
  \/ exists a, a ∈ descendants root /\ self a = p.
Proof.
  unfold descendants.
  generalize (self root :: parents root) as ps. intros ps.
  induction (contents_of (self root)) as [|c r IH]; simpl.
  - by intros ?%elem_of_nil.
  - intros [He | He]%elem_of_app Hp.
    + destruct (walk_ancestors _ _ _ _ _ He Hp) as [Hq | (a & Ha & Hs)];
        [by left|].
      right. exists a. split; [|done]. apply elem_of_app. by left.
    + destruct (IH He Hp) as [Hq | (a & Ha & Hs)]; [by left|].
      right. exists a. split; [|done]. apply elem_of_app. by right.
Qed.

(** ** The shapes the removal keeps *)

Lemma shapes_of_app (l1 l2 : list element) :
  shapes_of (l1 ++ l2) = shapes_of l1 ++ shapes_of l2.
Proof. unfold shapes_of. by rewrite map_app. Qed.

Lemma shapes_of_extract_all (n : node) :
  forall ps ps' sibs sibs',
    existsb (named removed_names) ps = false ->
    named removed_names n = false ->
    shapes_of (walk ps' (extract_all removed_names n) sibs')
    = shapes_of (List.filter (fun e => negb (hidden e)) (walk ps n sibs)).
Proof.
  induction n as [nm attrs cs IH | c v] using node_ind;
    intros ps ps' sibs sibs' Hps Hn.
  - rewrite extract_all_tag, !walk_tag. cbn [List.filter].
    unfold hidden at 1. cbn [self parents]. rewrite Hn, Hps. cbn [orb negb].
    change (shapes_of (?e :: ?l)) with (shape (self e) :: shapes_of l).
    cbn [self shape]. f_equal.
    assert (Hps' : existsb (named removed_names) (Tag nm attrs cs :: ps) = false).
    { cbn [existsb]. by rewrite Hn, Hps. }
    revert Hps'. generalize (Tag nm attrs cs :: ps) as qs.
    generalize (Tag nm attrs (extract_contents removed_names cs) :: ps') as qs'.
    intros qs' qs Hqs. clear Hn.
    induction IH as [|c r Hc _ IHr]; [done|].
    cbn [extract_contents walk_contents].
    rewrite filter_app_list, shapes_of_app.
    destruct (named removed_names c) eqn:Hc'.
    + rewrite visible_below_removed by done. simpl. apply IHr.
    + cbn [walk_contents]. rewrite shapes_of_app. f_equal; [|apply IHr].
      by apply Hc.
  - simpl. unfold hidden. simpl. by rewrite Hps.
Qed.

Lemma cleaned_shapes (top : list node) :
  shapes_of (descendants (cleaned top))
  = shapes_of (List.filter (fun e => negb (hidden e))
                           (descendants (soup_of top))).
Proof.
  unfold descendants, cleaned, soup_of. cbn [self parents contents_of].
  assert (Hps : existsb (named removed_names)
                  [Tag (py "[document]") [] top] = false) by done.
  revert Hps. generalize [Tag (py "[document]") [] top] as ps.
  generalize [Tag (py "[document]") [] (extract_contents removed_names top)]
    as ps'.
  intros ps' ps Hps. induction top as [|c r IH]; [done|].
  cbn [extract_contents walk_contents].
  rewrite filter_app_list, shapes_of_app.
  destruct (named removed_names c) eqn:Hc.
  - rewrite visible_below_removed by done. simpl. apply IH.
  - cbn [walk_contents]. rewrite shapes_of_app. f_equal; [|apply IH].
    by apply shapes_of_extract_all.
Qed.

(** A tag of the cleaned tree is a tag of the parsed document, with the
    same name and attributes, outside the three kinds of tags. *)
Lemma cleaned_tag_origin (top : list node) (a : element) nm attrs cs :
  a ∈ descendants (cleaned top) -> self a = Tag nm attrs cs ->
  exists e cs',
    e ∈ descendants (soup_of top)
    /\ in_script_style_noscript e = false
    /\ self e = Tag nm attrs cs'.
Proof.
  intros Ha Hs.
  assert (Hin : inl (nm, attrs) ∈ shapes_of (descendants (cleaned top))).
  { unfold shapes_of. apply list_elem_of_In, in_map_iff. exists a.
    split; [by rewrite Hs | by apply list_elem_of_In]. }
  rewrite cleaned_shapes in Hin.
  apply list_elem_of_In, in_map_iff in Hin as (e & Hshape & He).
  apply filter_In in He as [He Hh].
  destruct (self e) as [nm' attrs' cs'|] eqn:Hse; [|done].
  injection Hshape as -> ->. exists e, cs'.
  split; [by apply list_elem_of_In|]. split; [|done].
  unfold hidden in Hh. unfold in_script_style_noscript. cbn [existsb].
  by destruct (named _ (self e) || existsb _ (parents e)).
Qed.

(** ** No field holds text of a script, a style or a noscript *)

Lemma hidden_by_name (e : element) : hidden e = in_script_style_noscript e.
Proof. reflexivity. Qed.

(** The text of the root or of any tag of the cleaned tree is made of
    fragments of the page. *)
Lemma cleaned_node_text (top : list node) (t : node) (sep : pystr) :
  t = self (cleaned top)
  \/ (exists a, a ∈ descendants (cleaned top) /\ self a = t) ->
  joined_fragments top sep (get_text sep t).
Proof.
  intros Ht. exists (all_strings t). split; [done|].
  apply Forall_forall. intros f Hf.
  destruct (all_strings_origin _ _ Hf) as (c & v & Hin & _ & ->).
  assert (Hc : (c, v) ∈ strings_of (descendants (cleaned top))).
  { destruct Ht as [-> | (a & Ha & <-)]; [exact Hin|].
    rewrite (strings_of_contents_anywhere _ _ (self a :: parents a)) in Hin.
    apply elem_of_strings_of in Hin as (x & Hx & Hsx).
    apply elem_of_strings_of. exists x. split; [|done].
    by apply (descendants_closed _ a). }
  destruct (visible_string _ _ _ Hc) as (e & He & Hh & Hs).
  exists e. split; [done|]. split; [by rewrite <- hidden_by_name|].
  rewrite Hs. by split.
Qed.

Lemma element_text (top : list node) (a : element) (sep : pystr) :
  a ∈ descendants (cleaned top) ->
  joined_fragments top sep (get_text sep (self a)).
Proof. intros Ha. apply cleaned_node_text. right. by exists a. Qed.

Lemma single_entry (top : list node) (x : pystr) :
  joined_fragments top (py " ") x -> section_entry top x.
Proof.
  intros Hx. exists [x]. split; [done|].
  apply List.Forall_cons; [done | apply List.Forall_nil].
Qed.

Lemma find_all_descendants (names : list pystr) (root h : element) :
  h ∈ find_all names root -> h ∈ descendants root.
Proof.
  unfold find_all. intros Hh.
  apply list_elem_of_In, filter_In in Hh as [Hh _]. by apply list_elem_of_In.
Qed.

Lemma with_siblings_text (top : list node) (k : nat) (h : element) :
  h ∈ descendants (cleaned top) ->
  Forall (joined_fragments top (py " ")) (with_siblings k h).
Proof.
  intros Hh. unfold with_siblings.
  apply List.Forall_cons; [by apply element_text|].
  apply Forall_list_filter, Forall_list_map. intros s Hs.
  apply element_text. apply (descendants_siblings _ h); [done|].
  assert (Hs' : s ∈ sibling_tags h).
  { eapply elem_of_sublist; [exact Hs | apply sublist_take]. }
  unfold sibling_tags in Hs'.
  apply list_elem_of_In, filter_In in Hs' as [Hs' _]. by apply list_elem_of_In.
Qed.

Lemma keyword_blocks_text (lower : pystr -> pystr) (top : list node)
    (names keywords : list pystr) :
  Forall (section_entry top) (keyword_blocks lower names keywords (cleaned top)).
Proof.
  unfold keyword_blocks. apply Forall_list_map. intros h Hh.
  exists (with_siblings 6 h). split; [done|]. apply with_siblings_text.
  apply list_elem_of_In, filter_In in Hh as [Hh _].
  apply (find_all_descendants names). by apply list_elem_of_In.
Qed.

Lemma parent_block_text (top : list node) (e : element) :
  e ∈ descendants (cleaned top) ->
  joined_fragments top (py " ") (parent_block e).
Proof.
  intros He. unfold parent_block, parent.
  destruct (parents e) as [|p ps] eqn:Hps; simpl.
  - exists []. split; [done | apply List.Forall_nil].
  - apply cleaned_node_text.
    assert (Hp : p ∈ parents e) by (rewrite Hps; by left).
    destruct (descendants_ancestors _ _ _ He Hp) as [Hroot | Ha]; [|by right].
    left. cbn [cleaned soup_of self parents] in Hroot.
    by apply list_elem_of_singleton in Hroot.
Qed.

Lemma sections_text (lower : pystr -> pystr) (top : list node) :
  map_Forall (fun _ entries => Forall (section_entry top) entries)
             (sections_of lower (cleaned top)).
Proof.
  intros k v Hk.
  destruct (decide (k = "hero"%string)) as [-> | H1].
  { rewrite sections_hero in Hk.
    destruct (find (py "h1") (cleaned top)) as [h|] eqn:Hfind; [|done].
    injection Hk as <-. apply find_elem in Hfind as [Hh _].
    eapply Forall_impl; [by apply with_siblings_text|].
    intros x Hx. by apply single_entry. }
  destruct (decide (k = "services"%string)) as [-> | H2].
  { rewrite sections_services in Hk. apply detected_some in Hk as ->.
    apply keyword_blocks_text. }
  destruct (decide (k = "testimonials"%string)) as [-> | H3].
  { rewrite sections_testimonials in Hk. apply detected_some in Hk as ->.
    unfold testimonial_blocks. apply Forall_forall. intros b Hb.
    assert (Hb' : b ∈ unique_first
                        (List.filter truthy
                           (List.map parent_block
                              (List.filter (mentions_testimonial lower)
                                 (find_all_text (cleaned top)))))).
    { eapply elem_of_sublist; [exact Hb | apply sublist_take]. }
    apply (proj1 (unique_first_elem _ _)) in Hb'.
    apply list_elem_of_In, filter_In in Hb' as [Hb' _].
    apply in_map_iff in Hb' as (e & <- & He).
    apply filter_In in He as [He _]. unfold find_all_text in He.
    apply filter_In in He as [He _].
    apply single_entry, parent_block_text. by apply list_elem_of_In. }
  destruct (decide (k = "contact"%string)) as [-> | H4].
  { rewrite sections_contact in Hk. apply detected_some in Hk as ->.
    apply Forall_app. split; [|apply keyword_blocks_text].
    unfold form_blocks. apply Forall_list_filter, Forall_list_map.
    intros f Hf. apply single_entry, element_text.
    by apply (find_all_descendants [py "form"]). }
  by rewrite sections_other in Hk.
Qed.

Lemma navigation_text (top : list node) :
  Forall (page_link top) (linked_anchors_in_nav (cleaned top)).
Proof.
  unfold linked_anchors_in_nav. apply Forall_list_map. intros a Ha.
  apply list_elem_of_In, filter_In in Ha as [Ha Hl].
  apply list_elem_of_In in Ha.
  apply andb_prop in Hl as [Hl _]. unfold labelled_nav_anchor in Hl.
  apply andb_prop in Hl as [Hl _]. apply andb_prop in Hl as [Hn _].
  destruct (self a) as [nm attrs cs|] eqn:Hs; [|done].
  simpl in Hn. apply bool_decide_eq_true_1, list_elem_of_singleton in Hn.
  subst nm.
  destruct (cleaned_tag_origin _ _ _ _ _ Ha Hs) as (e & cs' & He & Hh & Hse).
  exists e, attrs, cs'. split; [done|]. split; [done|]. split; [done|].
  unfold nav_entry, anchor_label. cbn [href label]. rewrite Hs. split; [done|].
  rewrite <- Hs. by apply element_text.
Qed.

Section ScriptText.

Variable BeautifulSoup : pystr -> result (list node).
Variable lower : pystr -> pystr.

(** C6. For every input [html] the parser accepts: the result is the one
    the extractor gives for the document without its [script], [style]
    and [noscript] elements; the tree the fields are read from has no
    element that is or lies in one of them, and its strings are those
    of the parsed document outside them; the text dump is made of
    trimmed strings of the parsed document outside them and of nothing
    else, and so is every entry of every section and every navigation
    label, the [href] of an entry being that of an anchor outside them.
    For [<script>evil()</script>Hello] the text is "Hello", which has no
    "evil" in it; for a page with a heading, a script and a noscript
    only the heading is left in the text and in the hero, and an anchor
    inside a noscript gives no navigation entry. *)
Theorem script_text_is_in_no_field (html : pystr) :
  match BeautifulSoup html with
  | Ok top =>
      exists r,
        extract_text_and_sections BeautifulSoup lower html = Ok r
        /\ extract_soup lower
             (extract_contents [py "script"; py "style"; py "noscript"] top)
           = Ok r
        /\ Forall (fun e => in_script_style_noscript e = false)
             (descendants (cleaned top))
        /\ strings_of (descendants (cleaned top))
           = strings_of
               (List.filter (fun e => negb (in_script_style_noscript e))
                            (descendants (soup_of top)))
        /\ joined_fragments top [10] (raw_text r)
        /\ map_Forall (fun _ entries => Forall (section_entry top) entries)
             (sections r)
        /\ Forall (page_link top) (navigation r)
  | Raise e => extract_text_and_sections BeautifulSoup lower html = Raise e
  end
  /\ extract_soup lower_latin_cyrillic script_page
     = Ok {| raw_text := py "Hello"; sections := ∅; navigation := [] |}
  /\ contains (py "evil") (py "Hello") = false
  /\ contains (py "Hello") (py "Hello") = true
  /\ extract_soup lower_latin_cyrillic scripted_page
     = Ok {| raw_text := py "A";
             sections := <["hero"%string := [py "A"]]> ∅;
             navigation := [] |}
  /\ extract_soup lower_latin_cyrillic tracked_page
     = Ok {| raw_text := []; sections := ∅; navigation := [] |}.
Proof.
  split; [|repeat split; by vm_compute].
  destruct (BeautifulSoup html) as [top | e] eqn:Hparse;
    [|by apply extract_rejected].
  rewrite (extract_parsed _ _ _ _ Hparse), extract_soup_ok.
  eexists. split; [done|]. cbn [raw_text sections navigation].
  split; [|split; [|split; [|split; [|split]]]].
  - unfold cleaned. fold removed_names. by rewrite extract_contents_idem.
  - apply cleaned_has_no_removed.
  - apply cleaned_strings.
  - apply cleaned_node_text.
    destruct (find (py "body") (cleaned top)) as [b|] eqn:Hfind; simpl.
    + right. exists b. split; [|done]. by apply find_elem in Hfind as [Hb _].
    + by left.
  - apply sections_text.
  - apply navigation_text.
Qed.

End ScriptText.

(** C1, as stated, fails: on the markup [<p>ok</p><![ x ]>] the parser
    raises and the function raises with it, returning no result. *)
Lemma rejected_markup_raises :
  strict_parser rejected_markup
  = Raise (ParserRejectedMarkup (py "expected name token at '<![ x ]>'"))
  /\ extract_text_and_sections strict_parser lower_latin_cyrillic rejected_markup
     = Raise (ParserRejectedMarkup (py "expected name token at '<![ x ]>'"))
  /\ ~ (exists r,
          extract_text_and_sections strict_parser lower_latin_cyrillic
            rejected_markup = Ok r).
Proof.
  assert (H : extract_text_and_sections strict_parser lower_latin_cyrillic
                rejected_markup
              = Raise (ParserRejectedMarkup
                         (py "expected name token at '<![ x ]>'")))
    by (vm_compute; reflexivity).
  split; [by vm_compute|]. split; [exact H|].
  intros [r Hr]. rewrite H in Hr. discriminate.
Qed.

(** An import of that markup: the answer has status 500 and the store
    is not called. *)
Example import_of_rejected_markup :
  http_status
    (import_content strict_parser lower_latin_cyrillic
       (answering 200 rejected_markup) example_request empty_store).1 = 500%Z
  /\ (import_content strict_parser lower_latin_cyrillic
        (answering 200 rejected_markup) example_request empty_store).2
     = empty_store.
Proof. split; by vm_compute. Qed.
